(** * core/views.py: friend requests, chat threads and notifications

    A shallow embedding of the view functions of [core/views.py] over an
    explicit model of the database they reach through the Django ORM,
    followed by the properties of the social-graph specification that can
    be stated on them. *)

From Stdlib Require Import Ascii.
From stdpp Require Import gmap strings list sorting.

Local Open Scope string_scope.
Local Open Scope Z_scope.

(** ** Data model *)

(** A user is referred to by its primary key. *)
Definition User := Z.

(** The columns the views read and write.  [status] is a character column
    that the views compare with string literals, so it is a string here. *)
Module FriendRequest.
Record t := Build
  { sender : User; receiver : User; status : string; created_at : Z }.
Definition with_status (s : string) (r : t) : t :=
  {| sender := sender r; receiver := receiver r; status := s;
     created_at := created_at r |}.
End FriendRequest.

Module Friendship.
Record t := Build { user1 : User; user2 : User; created_at : Z }.
End Friendship.

Module Message.
Record t := Build
  { sender : User; receiver : User; body : string; timestamp : Z }.
End Message.

Module Notification.
Record t := Build
  { user : User; payload : string; is_read : bool; timestamp : Z }.
Definition with_is_read (b : bool) (n : t) : t :=
  {| user := user n; payload := payload n; is_read := b;
     timestamp := timestamp n |}.
End Notification.

(** A table maps primary keys to rows; the database is its four tables. *)
Record DB := mkDB
  { friend_requests : gmap Z FriendRequest.t;
    friendships : gmap Z Friendship.t;
    messages : gmap Z Message.t;
    notifications : gmap Z Notification.t }.

Definition set_friend_requests (t : gmap Z FriendRequest.t) (d : DB) : DB :=
  mkDB t (friendships d) (messages d) (notifications d).
Definition set_friendships (t : gmap Z Friendship.t) (d : DB) : DB :=
  mkDB (friend_requests d) t (messages d) (notifications d).
Definition set_messages (t : gmap Z Message.t) (d : DB) : DB :=
  mkDB (friend_requests d) (friendships d) t (notifications d).
Definition set_notifications (t : gmap Z Notification.t) (d : DB) : DB :=
  mkDB (friend_requests d) (friendships d) (messages d) t.

(** ** Effects

    A view runs against the store and either returns or raises.  The views
    open no transaction, so every ORM write is committed when it is
    executed (Django's autocommit): the store a view leaves behind is the
    store after its last completed write, also when the view raises.

    The store itself may fail: [outage = Some n] says that [n] more writes
    go through and every later one raises [OperationalError];
    [outage = None] is a store that never fails.  Reads do not fail. *)

Inductive Exc := Http404 | IntegrityError | OperationalError.

Inductive Outcome (A : Type) := Return (a : A) | Raise (e : Exc).
Arguments Return {A} a.
Arguments Raise {A} e.

Record World := mkWorld { db : DB; outage : option nat }.

Definition M (A : Type) : Type := World → Outcome A * World.

Global Instance M_ret : MRet M := λ A a w, (Return a, w).
Global Instance M_bind : MBind M := λ A B k m w,
  match m w with
  | (Return a, w') => k a w'
  | (Raise e, w') => (Raise e, w')
  end.
Definition raise {A} (e : Exc) : M A := λ w, (Raise e, w).

(** Reading the store. *)
Definition query {A} (f : DB → A) : M A := λ w, (Return (f (db w)), w).

(** One committed write. *)
Definition commit (upd : DB → DB) : M unit := λ w,
  if decide (outage w = Some O) then (Raise OperationalError, w)
  else (Return tt, mkWorld (upd (db w)) (Nat.pred <$> outage w)).

(** ** The ORM operations the views use *)

(** [objects.create] stores the row under a key the table does not use. *)
Definition next_pk {R} (t : gmap Z R) : Z := fresh (dom t).

(** [get_object_or_404(Model, pk=pk, <column>=request.user)]: the row
    stored under [pk] if it passes the filter on the column, [Http404]
    if there is no such row. *)
Definition get_object_or_404 {R} (table : DB → gmap Z R)
    (P : R → Prop) `{∀ r, Decision (P r)} (pk : Z) : M R :=
  t ← query table;
  match t !! pk with
  | Some r => if decide (P r) then mret r else raise Http404
  | None => raise Http404
  end.

(** [Friendship.objects.filter(user1=a, user2=b).exists()]. *)
Definition is_edge (a b : User) (f : Friendship.t) : Prop :=
  Friendship.user1 f = a ∧ Friendship.user2 f = b.

Definition Friendship_exists (a b : User) (t : gmap Z Friendship.t) : bool :=
  bool_decide (map_Exists (λ _ f, is_edge a b f) t).

(** Modelled from the spec: the Friendship model is declared in
    core/models.py, which is not part of the sources; the specification
    gives it the columns id, user1, user2 and a creation timestamp, and a
    uniqueness constraint on the pair (user1, user2) that the store
    enforces.  [Friendship.objects.create] therefore raises
    [IntegrityError] when the directed pair is already stored. *)
Definition Friendship_objects_create (now : Z) (a b : User) : M unit :=
  dup ← query (λ d, Friendship_exists a b (friendships d));
  if (dup : bool) then raise IntegrityError
  else commit (λ d, set_friendships
         (<[next_pk (friendships d) := Friendship.Build a b now]> (friendships d)) d).

(** [friend_request.save()] of a row loaded under [pk]. *)
Definition FriendRequest_save (pk : Z) (r : FriendRequest.t) : M unit :=
  commit (λ d, set_friend_requests (<[pk := r]> (friend_requests d)) d).

(** [notification.save()] of a row loaded under [pk]. *)
Definition Notification_save (pk : Z) (n : Notification.t) : M unit :=
  commit (λ d, set_notifications (<[pk := n]> (notifications d)) d).

(** A query set is the list of the selected rows with their keys. *)
Definition objects_filter {R} (P : R → Prop) `{∀ r, Decision (P r)}
    (t : gmap Z R) : list (Z * R) :=
  filter (λ kr, P kr.2) (map_to_list t).

(** [order_by('column')] and [order_by('-column')].  The order the store
    gives to rows with equal keys is taken to be a function of the
    selected rows: here, the order a merge sort leaves them in. *)
Definition ascending {R} (column : R → Z) (x y : Z * R) : Prop :=
  column x.2 ≤ column y.2.
Definition descending {R} (column : R → Z) (x y : Z * R) : Prop :=
  column y.2 ≤ column x.2.

Global Instance ascending_dec {R} (c : R → Z) x y : Decision (ascending c x y).
Proof. unfold ascending. apply _. Defined.
Global Instance descending_dec {R} (c : R → Z) x y : Decision (descending c x y).
Proof. unfold descending. apply _. Defined.

Definition order_by {R} (column : R → Z) (q : list (Z * R)) : list (Z * R) :=
  merge_sort (ascending column) q.
Definition order_by_desc {R} (column : R → Z) (q : list (Z * R)) : list (Z * R) :=
  merge_sort (descending column) q.

(** ** Responses *)

Record Response := mkResponse
  { status_code : Z; data : list (string * string) }.

Definition HTTP_200_OK : Z := 200.
Definition HTTP_201_CREATED : Z := 201.
Definition HTTP_400_BAD_REQUEST : Z := 400.

(** ** FriendRequestViewSet *)

Definition addressed_to (u : User) (r : FriendRequest.t) : Prop :=
  FriendRequest.receiver r = u.

Global Instance addressed_to_dec u r : Decision (addressed_to u r).
Proof. unfold addressed_to. apply _. Defined.

Definition FriendRequest_get_queryset (user : User) (d : DB)
    : list (Z * FriendRequest.t) :=
  order_by_desc FriendRequest.created_at
    (objects_filter (addressed_to user) (friend_requests d)).

(** Modelled from the spec: nothing in the sources writes a notification;
    the specification has a Notification Service whose notify appends,
    for an owner and a kind of event, a notification that is not read. *)
Definition notified (now : Z) (owner : User) (kind : string) (d : DB) : DB :=
  set_notifications
    (<[next_pk (notifications d) := Notification.Build owner kind false now]>
       (notifications d)) d.

(** Modelled from the spec: InvalidTarget, the refusal of an operation on
    a target it cannot have, is surfaced to the caller as a rejected
    request. *)
Definition invalid_target : Response :=
  mkResponse HTTP_400_BAD_REQUEST [("detail", "Invalid target")].

(** Modelled from the spec: FriendRequestSerializer is declared outside
    the sources; the specification's create refuses a request whose
    receiver is its sender. *)
Definition FriendRequestSerializer_is_valid (sender receiver : User) : bool :=
  bool_decide (sender ≠ receiver).

(** Modelled from the spec: FriendRequestSerializer and the FriendRequest
    model are declared outside the sources; the specification's create
    stores the request with status pending and, on success, enqueues a
    notification for the receiver, the two as one unit. *)
Definition FriendRequestSerializer_save (now : Z) (sender receiver : User)
    : M unit :=
  commit (λ d, notified now receiver "friend request"
    (set_friend_requests
       (<[next_pk (friend_requests d) :=
            FriendRequest.Build sender receiver "pending" now]> (friend_requests d))
       d)).

(** [serializer.save(sender=self.request.user)]. *)
Definition FriendRequest_perform_create (now : Z) (user : User)
    (receiver : User) : M unit :=
  FriendRequestSerializer_save now user receiver.

(** The create action the viewset inherits from ModelViewSet: the
    serializer validates the data of the request, the hook saves, and the
    answer is 201. *)
Definition FriendRequest_create (now : Z) (user : User) (receiver : User)
    : M Response :=
  if FriendRequestSerializer_is_valid user receiver then
    FriendRequest_perform_create now user receiver;;
    mret (mkResponse HTTP_201_CREATED [])
  else mret invalid_target.

Definition accept (now : Z) (user : User) (pk : Z) : M Response :=
  friend_request ← get_object_or_404 friend_requests (addressed_to user) pk;
  if decide (FriendRequest.status friend_request ≠ "pending") then
    mret (mkResponse HTTP_400_BAD_REQUEST
            [("detail", "Request already processed")])
  else
    dup ← query (λ d, Friendship_exists
                   (FriendRequest.sender friend_request)
                   (FriendRequest.receiver friend_request) (friendships d));
    if (dup : bool) then
      mret (mkResponse HTTP_400_BAD_REQUEST [("detail", "Already friends")])
    else
      let friend_request := FriendRequest.with_status "accepted" friend_request in
      FriendRequest_save pk friend_request;;
      Friendship_objects_create now
        (FriendRequest.sender friend_request)
        (FriendRequest.receiver friend_request);;
      Friendship_objects_create now
        (FriendRequest.receiver friend_request)
        (FriendRequest.sender friend_request);;
      mret (mkResponse HTTP_200_OK
              [("detail", "Friend request accepted");
               ("status", FriendRequest.status friend_request)]).

Definition decline (user : User) (pk : Z) : M Response :=
  friend_request ← get_object_or_404 friend_requests (addressed_to user) pk;
  if decide (FriendRequest.status friend_request ≠ "pending") then
    mret (mkResponse HTTP_400_BAD_REQUEST
            [("detail", "Request already processed")])
  else
    let friend_request := FriendRequest.with_status "declined" friend_request in
    FriendRequest_save pk friend_request;;
    mret (mkResponse HTTP_200_OK
            [("detail", "Friend request declined");
             ("status", FriendRequest.status friend_request)]).

(** Modelled from the spec: accept in the sources writes no notification;
    the specification has a successful acceptance emit an event to which
    the Notification Service answers with a notification for the sender
    of the request.  The subscriber is declared outside the sources; here
    it runs when accept has answered 200. *)
Definition accept_notifying (now : Z) (user : User) (pk : Z) : M Response :=
  resp ← accept now user pk;
  if decide (status_code resp = HTTP_200_OK) then
    friend_request ← query (λ d, friend_requests d !! pk);
    match friend_request with
    | Some r =>
      commit (notified now (FriendRequest.sender r) "friend request accepted");;
      mret resp
    | None => mret resp
    end
  else mret resp.

(** ** ChatMessageViewSet *)

Definition in_thread (user : User) (friend_id : Z) (m : Message.t) : Prop :=
  (Message.sender m = user ∧ Message.receiver m = friend_id) ∨
  (Message.sender m = friend_id ∧ Message.receiver m = user).

Global Instance in_thread_dec u f m : Decision (in_thread u f m).
Proof. unfold in_thread. apply _. Defined.

Section ChatMessageViewSet.

(** Python's [int] on the text of a query parameter: [None] stands for
    [ValueError].  A parameter that is absent reaches [int] as [None] and
    raises [TypeError]; the view answers both with the empty query set. *)
Variable int : string → option Z.

Definition ChatMessage_get_queryset (user : User)
    (friend_id : option string) (d : DB) : list (Z * Message.t) :=
  match friend_id with
  | None => []
  | Some s =>
    match int s with
    | None => []
    | Some friend_id =>
      order_by Message.timestamp
        (objects_filter (in_thread user friend_id) (messages d))
    end
  end.

End ChatMessageViewSet.

(** Modelled from the spec: MessageSerializer is declared outside the
    sources; the specification's send refuses a message whose receiver is
    its sender and a message whose body is empty. *)
Definition MessageSerializer_is_valid (sender receiver : User)
    (body : string) : bool :=
  bool_decide (sender ≠ receiver ∧ body ≠ "").

(** Modelled from the spec: MessageSerializer and the Message model are
    declared outside the sources; the specification's send stores the
    message, stamped with the time of creation, and on success enqueues a
    notification for the receiver, the two as one unit. *)
Definition MessageSerializer_save (now : Z) (sender receiver : User)
    (body : string) : M unit :=
  commit (λ d, notified now receiver "message"
    (set_messages
       (<[next_pk (messages d) := Message.Build sender receiver body now]> (messages d))
       d)).

(** [serializer.save(sender=self.request.user)]. *)
Definition ChatMessage_perform_create (now : Z) (user : User)
    (receiver : User) (body : string) : M unit :=
  MessageSerializer_save now user receiver body.

(** The create action the viewset inherits from ModelViewSet: the
    serializer validates the data of the request, the hook saves, and the
    answer is 201. *)
Definition ChatMessage_create (now : Z) (user : User) (receiver : User)
    (body : string) : M Response :=
  if MessageSerializer_is_valid user receiver body then
    ChatMessage_perform_create now user receiver body;;
    mret (mkResponse HTTP_201_CREATED [])
  else mret invalid_target.

(** ** NotificationListView and NotificationMarkReadView *)

Definition owned_by (u : User) (n : Notification.t) : Prop :=
  Notification.user n = u.

Global Instance owned_by_dec u n : Decision (owned_by u n).
Proof. unfold owned_by. apply _. Defined.

Definition Notification_get_queryset (user : User) (d : DB)
    : list (Z * Notification.t) :=
  order_by_desc Notification.timestamp
    (objects_filter (owned_by user) (notifications d)).

Definition post (user : User) (pk : Z) : M Response :=
  notification ← get_object_or_404 notifications (owned_by user) pk;
  let notification := Notification.with_is_read true notification in
  Notification_save pk notification;;
  mret (mkResponse HTTP_200_OK [("detail", "Notification marked as read.")]).

(** ** FriendsListView *)

(** The columns of the user model that the views read.  The user table is
    kept by the user directory; the views that need it read it beside
    the database. *)
Module UserRow.
Record t := Build { username : string; email : string }.
End UserRow.

Definition befriended_by (u : User) (f : Friendship.t) : Prop :=
  Friendship.user1 f = u.

Global Instance befriended_by_dec u f : Decision (befriended_by u f).
Proof. unfold befriended_by. apply _. Defined.

Definition FriendsList_get_queryset (users : gmap Z UserRow.t) (user : User)
    (d : DB) : list (Z * UserRow.t) :=
  let friendships := objects_filter (befriended_by user) (friendships d) in
  let friend_ids := (λ kf, Friendship.user2 kf.2) <$> friendships in
  filter (λ ku, ku.1 ∈ friend_ids) (map_to_list users).

(** ** DiscoverEventsAPIView *)

Section DiscoverEventsAPIView.

(** The Event model and EventSerializer are declared outside the sources:
    the view reads the columns is_public and created_at of an event and
    hands the rows it selects to the serializer. *)
Variable Event : Type.
Variable is_public : Event → bool.
Variable created_at : Event → Z.
Variable Serialized : Type.
Variable EventSerializer : Event → Serialized.

Definition public (e : Event) : Prop := is_public e = true.

Global Instance public_dec e : Decision (public e).
Proof. unfold public. apply _. Defined.

Definition DiscoverEvents_queryset (events : gmap Z Event) : list (Z * Event) :=
  take 10 (order_by_desc created_at (objects_filter public events)).

Definition DiscoverEvents_get (events : gmap Z Event) : list Serialized :=
  (λ ke, EventSerializer ke.2) <$> DiscoverEvents_queryset events.

End DiscoverEventsAPIView.

(** ** WishlistEventViewSet and AttendedEventViewSet *)

Section WishlistEventViewSet.

(** The WishListEvent model and its serializer are declared outside the
    sources: the views read the columns user and added_at, and
    [serializer.save(user=request.user)] stores the validated row with its
    user column set to the acting user. *)
Variable WishListEvent : Type.
Variable user : WishListEvent → User.
Variable added_at : WishListEvent → Z.
Variable with_user : User → WishListEvent → WishListEvent.

Definition wished_by (u : User) (e : WishListEvent) : Prop := user e = u.

Global Instance wished_by_dec u e : Decision (wished_by u e).
Proof. unfold wished_by. apply _. Defined.

Definition WishlistEvent_get_queryset (u : User)
    (t : gmap Z WishListEvent) : list (Z * WishListEvent) :=
  order_by_desc added_at (objects_filter (wished_by u) t).

(** The table after the write, on a store that takes it. *)
Definition WishlistEvent_perform_create (u : User) (validated : WishListEvent)
    (t : gmap Z WishListEvent) : gmap Z WishListEvent :=
  <[next_pk t := with_user u validated]> t.

End WishlistEventViewSet.

Section AttendedEventViewSet.

(** As for the wishlist, with the columns user and attended_at of the
    AttendedEvent model. *)
Variable AttendedEvent : Type.
Variable user : AttendedEvent → User.
Variable attended_at : AttendedEvent → Z.
Variable with_user : User → AttendedEvent → AttendedEvent.

Definition attended_by (u : User) (e : AttendedEvent) : Prop := user e = u.

Global Instance attended_by_dec u e : Decision (attended_by u e).
Proof. unfold attended_by. apply _. Defined.

Definition AttendedEvent_get_queryset (u : User)
    (t : gmap Z AttendedEvent) : list (Z * AttendedEvent) :=
  order_by_desc attended_at (objects_filter (attended_by u) t).

(** The table after the write, on a store that takes it. *)
Definition AttendedEvent_perform_create (u : User) (validated : AttendedEvent)
    (t : gmap Z AttendedEvent) : gmap Z AttendedEvent :=
  <[next_pk t := with_user u validated]> t.

End AttendedEventViewSet.

(** ** GoogleAuthView *)

(** The exceptions the view tells apart: its handler catches
    [ValueError] and lets every other exception through. *)
Inductive PyExc := ValueError | OtherException.

Inductive Try (A : Type) := Done (a : A) | Thrown (e : PyExc).
Arguments Done {A} a.
Arguments Thrown {A} e.

(** The answers of the view: a detail, or the session of a user. *)
Inductive AuthData :=
  | Detail (detail : string)
  | Session (token : string) (id : Z) (username email : string).

Record AuthResponse := mkAuthResponse
  { auth_status_code : Z; auth_data : AuthData }.

(** The two claims the view reads from a verified token. *)
Record IdInfo := mkIdInfo { id_email : option string; id_name : option string }.

(** [email.split('@')[0]]: the text before the first at sign, the whole
    text when it has none. *)
Fixpoint local_part (email : string) : string :=
  match email with
  | EmptyString => EmptyString
  | String c rest =>
    if decide (c = "@"%char) then EmptyString else String c (local_part rest)
  end.

(** The text has no at sign. *)
Fixpoint at_free (s : string) : Prop :=
  match s with
  | EmptyString => True
  | String c rest => c ≠ "@"%char ∧ at_free rest
  end.

Section GoogleAuthView.

(** What the view gets from outside: the value sent under 'token' with
    Python's truth value for it, the setting GOOGLE_CLIENT_ID if it is
    configured, Google's verification of a token for a client id, and the
    two [get_or_create] calls of the ORM on the user directory, which
    answer with a user (its key and row) and with the key of the user's
    token, or raise. *)
Variable TokenValue : Type.
Variable truthy : TokenValue → bool.
Variable Directory : Type.
Variable config : option string.
Variable verify_oauth2_token : TokenValue → string → Try IdInfo.
Variable User_get_or_create :
  string → string → Directory → Try (Z * UserRow.t) * Directory.
Variable Token_get_or_create : Z → Directory → Try string * Directory.

(** The body of the [try] block. *)
Definition GoogleAuth_try (token : TokenValue) (s : Directory)
    : Try AuthResponse * Directory :=
  match config with
  | None => (Thrown OtherException, s)
  | Some CLIENT_ID =>
    match verify_oauth2_token token CLIENT_ID with
    | Thrown e => (Thrown e, s)
    | Done idinfo =>
      match id_email idinfo with
      | None | Some EmptyString =>
        (Done (mkAuthResponse HTTP_400_BAD_REQUEST
                 (Detail "Google token missing email")), s)
      | Some email =>
        match User_get_or_create email (local_part email) s with
        | (Thrown e, s1) => (Thrown e, s1)
        | (Done (id, user), s1) =>
          match Token_get_or_create id s1 with
          | (Thrown e, s2) => (Thrown e, s2)
          | (Done key, s2) =>
            (Done (mkAuthResponse HTTP_200_OK
                     (Session key id (UserRow.username user) (UserRow.email user))),
             s2)
          end
        end
      end
    end
  end.

Definition GoogleAuth_post (token : option TokenValue) (s : Directory)
    : Try AuthResponse * Directory :=
  match token with
  | Some t =>
    if truthy t then
      match GoogleAuth_try t s with
      | (Thrown ValueError, s') =>
        (Done (mkAuthResponse HTTP_400_BAD_REQUEST
                 (Detail "Invalid Google token")), s')
      | result => result
      end
    else
      (Done (mkAuthResponse HTTP_400_BAD_REQUEST (Detail "Token is required")), s)
  | None =>
    (Done (mkAuthResponse HTTP_400_BAD_REQUEST (Detail "Token is required")), s)
  end.

End GoogleAuthView.

(** ** The vocabulary of the specification *)

Inductive ErrorKind := NotFound | AlreadyProcessed | DuplicateFriendship.

(** How the views report each kind of failure. *)
Definition fails_with (k : ErrorKind) (o : Outcome Response) : Prop :=
  match k with
  | NotFound => o = Raise Http404
  | AlreadyProcessed =>
    o = Return (mkResponse HTTP_400_BAD_REQUEST
                  [("detail", "Request already processed")])
  | DuplicateFriendship =>
    o = Return (mkResponse HTTP_400_BAD_REQUEST [("detail", "Already friends")])
  end.

Definition succeeds {A} (o : Outcome A) : Prop := ∃ a, o = Return a.

(** The answers of a successful accept and of a successful mark-read. *)
Definition accepted : Response :=
  mkResponse HTTP_200_OK
    [("detail", "Friend request accepted"); ("status", "accepted")].

Definition marked_read : Response :=
  mkResponse HTTP_200_OK [("detail", "Notification marked as read.")].

(** What accept and decline answer on a request that is not pending. *)
Definition processed_outcome (user : User) (r : FriendRequest.t)
    : Outcome Response :=
  if decide (FriendRequest.receiver r = user)
  then Return (mkResponse HTTP_400_BAD_REQUEST
                 [("detail", "Request already processed")])
  else Raise Http404.

(** The directed row (a, b) is stored. *)
Definition has_edge (a b : User) (d : DB) : Prop :=
  map_Exists (λ _ f, is_edge a b f) (friendships d).

Global Instance has_edge_dec a b d : Decision (has_edge a b d).
Proof. unfold has_edge. apply _. Defined.

(** Every friendship is stored in both directions. *)
Definition paired (d : DB) : Prop :=
  ∀ a b : User, has_edge a b d → has_edge b a d.

(** The status of the request stored under [pk]. *)
Definition status_of (pk : Z) (d : DB) : option string :=
  FriendRequest.status <$> friend_requests d !! pk.

(** A notification for [u] is stored in [after] under a key that [before]
    does not use. *)
Definition enqueued_for (u : User) (before after : DB) : Prop :=
  ∃ (pk : Z) (n : Notification.t),
    notifications after !! pk = Some n ∧
    notifications before !! pk = None ∧
    Notification.user n = u.

(** The store can take [n] more writes. *)
Definition up_for (n : nat) (w : World) : Prop :=
  match outage w with None => True | Some k => (n ≤ k)%nat end.

(** The three writes of [accept], one after the other. *)
Definition status_written (pk : Z) (r : FriendRequest.t) (d : DB) : DB :=
  set_friend_requests
    (<[pk := FriendRequest.with_status "accepted" r]> (friend_requests d)) d.

Definition edge_added (now : Z) (a b : User) (d : DB) : DB :=
  set_friendships
    (<[next_pk (friendships d) := Friendship.Build a b now]> (friendships d)) d.

(** ** Stores and readers to run the views on *)

(** A reader of decimal numerals: an optional sign followed by one or more
    digits. *)
Fixpoint digits (acc : Z) (s : string) : option Z :=
  match s with
  | EmptyString => Some acc
  | String c s' =>
    let n := Z.of_N (N_of_ascii c) in
    if decide (48 ≤ n ≤ 57) then digits (10 * acc + (n - 48)) s' else None
  end.

Definition decimal (s : string) : option Z :=
  match s with
  | EmptyString => None
  | String "-"%char (String _ _ as s') => Z.opp <$> digits 0 s'
  | String "+"%char (String _ _ as s') => digits 0 s'
  | _ => digits 0 s
  end.

Definition db_empty : DB := mkDB ∅ ∅ ∅ ∅.

(** User 10 has asked user 20. *)
Definition db_pending : DB :=
  mkDB {[ 1 := FriendRequest.Build 10 20 "pending" 5 ]} ∅ ∅ ∅.

(** User 20 has accepted. *)
Definition db_processed : DB :=
  mkDB {[ 1 := FriendRequest.Build 10 20 "accepted" 5 ]}
       {[ 0 := Friendship.Build 10 20 6; 1 := Friendship.Build 20 10 6 ]} ∅ ∅.

(** User 10 has asked again. *)
Definition db_friends : DB :=
  mkDB {[ 1 := FriendRequest.Build 10 20 "accepted" 5;
          2 := FriendRequest.Build 10 20 "pending" 8 ]}
       {[ 0 := Friendship.Build 10 20 6; 1 := Friendship.Build 20 10 6 ]} ∅ ∅.

(** Only the row from 20 to 10 is stored. *)
Definition db_reverse_only : DB :=
  mkDB {[ 1 := FriendRequest.Build 10 20 "pending" 5 ]}
       {[ 0 := Friendship.Build 20 10 6 ]} ∅ ∅.

Definition db_notes : DB :=
  mkDB ∅ ∅ ∅ {[ 4 := Notification.Build 20 "friend request" false 8;
                5 := Notification.Build 30 "message" false 9 ]}.

Definition db_chat : DB :=
  mkDB ∅ ∅
       {[ 1 := Message.Build 10 20 "hi" 3; 2 := Message.Build 20 10 "hello" 4;
          3 := Message.Build 10 30 "x" 1; 4 := Message.Build 30 20 "y" 2 ]} ∅.

(** The answer of a successful decline. *)
Definition declined : Response :=
  mkResponse HTTP_200_OK
    [("detail", "Friend request declined"); ("status", "declined")].

(** The write of [decline]. *)
Definition status_declined (pk : Z) (r : FriendRequest.t) (d : DB) : DB :=
  set_friend_requests
    (<[pk := FriendRequest.with_status "declined" r]> (friend_requests d)) d.

(** Two request rows that differ at most in their status. *)
Definition same_request (r r' : FriendRequest.t) : Prop :=
  FriendRequest.sender r' = FriendRequest.sender r ∧
  FriendRequest.receiver r' = FriendRequest.receiver r ∧
  FriendRequest.created_at r' = FriendRequest.created_at r.

(** Two notification rows that differ at most in their read flag. *)
Definition same_notification (n n' : Notification.t) : Prop :=
  Notification.user n' = Notification.user n ∧
  Notification.payload n' = Notification.payload n ∧
  Notification.timestamp n' = Notification.timestamp n.

(** What a call of accept ([target] accepted) or decline ([target]
    declined) by [user] on the key [pk] may do to the request table: no
    row appears or disappears, every row keeps its sender, receiver and
    creation time, and the only status that may change is that of a
    pending request stored under [pk] and addressed to [user], which may
    become [target]. *)
Definition request_step (target : string) (user : User) (pk : Z)
    (before after : DB) : Prop :=
  (∀ (k : Z) (r : FriendRequest.t),
     friend_requests before !! k = Some r →
     ∃ r', friend_requests after !! k = Some r' ∧ same_request r r' ∧
       (FriendRequest.status r' = FriendRequest.status r ∨
        (k = pk ∧ FriendRequest.receiver r = user ∧
         FriendRequest.status r = "pending" ∧
         FriendRequest.status r' = target))) ∧
  (∀ k : Z, friend_requests before !! k = None →
            friend_requests after !! k = None).

(** What the store may answer to the thread query of [user] with
    [friend_id]: ORDER BY timestamp fixes the order of the selected rows
    only up to the order of rows with equal timestamps, which it leaves
    to the store, so every ascending arrangement of the selected rows is
    an answer. *)
Definition thread_answer (user : User) (friend_id : Z) (d : DB)
    (l : list (Z * Message.t)) : Prop :=
  l ≡ₚ objects_filter (in_thread user friend_id) (messages d) ∧
  StronglySorted (ascending Message.timestamp) l.

(** Calls of accept and decline, and the world a sequence of them leaves
    behind, whatever each of them answers. *)
Inductive Call :=
  | CallAccept (now : Z) (user : User) (pk : Z)
  | CallDecline (user : User) (pk : Z).

Definition run_call (w : World) (c : Call) : World :=
  match c with
  | CallAccept now user pk => (accept now user pk w).2
  | CallDecline user pk => (decline user pk w).2
  end.

Definition run_calls (cs : list Call) (w : World) : World :=
  foldl run_call w cs.

(** The request stored under [pk] is addressed to [user] and is not
    pending. *)
Definition settled (user : User) (pk : Z) (d : DB) : Prop :=
  ∃ r, friend_requests d !! pk = Some r ∧
       FriendRequest.receiver r = user ∧
       FriendRequest.status r ≠ "pending".

(** Users 10 and 20 wrote to each other at the same time. *)
Definition db_ties : DB :=
  mkDB ∅ ∅
       {[ 1 := Message.Build 10 20 "now?" 8; 2 := Message.Build 20 10 "now!" 8 ]} ∅.

(** A user directory and a store of friends to list. *)
Definition users_abc : gmap Z UserRow.t :=
  {[ 10 := UserRow.Build "ann" "ann@example.org";
     20 := UserRow.Build "bob" "bob@example.org";
     30 := UserRow.Build "cy" "cy@example.org" ]}.

(** An event row with the two columns the discovery view reads, and an
    owned event row for the wishlist and attendance views. *)
Record event_row := mk_event { ev_public : bool; ev_created_at : Z }.
Record owned_row := mk_owned { ow_user : User; ow_at : Z }.
Definition ow_with_user (u : User) (e : owned_row) : owned_row :=
  mk_owned u (ow_at e).

Definition events_three : gmap Z event_row :=
  {[ 1 := mk_event true 5; 2 := mk_event false 9; 3 := mk_event true 7 ]}.

Definition owned_two : gmap Z owned_row :=
  {[ 1 := mk_owned 10 5; 2 := mk_owned 20 6 ]}.

(** A directory that knows one user and hands out one token, and a
    verifier that accepts one token, to run the login view on. *)
Definition one_user (email username : string) (s : unit)
    : Try (Z * UserRow.t) * unit :=
  (Done (10, UserRow.Build "ann" "ann@example.org"), s).
Definition one_token (id : Z) (s : unit) : Try string * unit :=
  (Done "k3y", s).
Definition verify_good (token : string) (client : string) : Try IdInfo :=
  if decide (token = "good")
  then Done (mkIdInfo (Some "ann@example.org") (Some "Ann"))
  else Thrown ValueError.
Definition nonempty (s : string) : bool := bool_decide (s ≠ "").

(** Closed facts about concrete stores are settled by evaluation. *)
Ltac by_compute :=
  first [ vm_compute; reflexivity
        | refine (bool_decide_eq_true_1 _ _); vm_compute; reflexivity
        | refine (bool_decide_eq_false_1 _ _); vm_compute; reflexivity ].

(** ** Running the store operations *)

Lemma next_pk_fresh {R} (t : gmap Z R) : t !! next_pk t = None.
Proof. apply not_elem_of_dom, is_fresh. Qed.

Lemma bind_run {A B} (m : M A) (k : A → M B) (w : World) :
  (m ≫= k) w = match m w with
               | (Return a, w') => k a w'
               | (Raise e, w') => (Raise e, w')
               end.
Proof. reflexivity. Qed.

Lemma commit_up (upd : DB → DB) (w : World) :
  outage w ≠ Some O →
  commit upd w = (Return tt, mkWorld (upd (db w)) (Nat.pred <$> outage w)).
Proof. intros Hup. unfold commit. by rewrite decide_False. Qed.

Lemma commit_keeps (upd : DB → DB) (w : World) :
  (∀ d, notifications (upd d) = notifications d) →
  notifications (db (commit upd w).2) = notifications (db w).
Proof. intros Hupd. unfold commit. case_decide; [done|apply Hupd]. Qed.

Lemma up_for_S (n : nat) (w : World) : up_for (S n) w → outage w ≠ Some O.
Proof. unfold up_for. destruct (outage w) as [[|k]|]; [lia|done..]. Qed.

Lemma up_for_pred (n : nat) (w : World) (d : DB) :
  up_for (S n) w → up_for n (mkWorld d (Nat.pred <$> outage w)).
Proof. unfold up_for. simpl. destruct (outage w) as [[|k]|]; simpl; lia. Qed.

Lemma get_object_or_404_found {R} (table : DB → gmap Z R) (P : R → Prop)
    `{∀ r, Decision (P r)} (pk : Z) (w : World) (r : R) :
  table (db w) !! pk = Some r → P r →
  get_object_or_404 table P pk w = (Return r, w).
Proof.
  intros Hpk HP. unfold get_object_or_404, query. rewrite bind_run, Hpk.
  by rewrite decide_True.
Qed.

Lemma get_object_or_404_foreign {R} (table : DB → gmap Z R) (P : R → Prop)
    `{∀ r, Decision (P r)} (pk : Z) (w : World) (r : R) :
  table (db w) !! pk = Some r → ¬ P r →
  get_object_or_404 table P pk w = (Raise Http404, w).
Proof.
  intros Hpk HP. unfold get_object_or_404, query. rewrite bind_run, Hpk.
  by rewrite decide_False.
Qed.

Lemma get_object_or_404_missing {R} (table : DB → gmap Z R) (P : R → Prop)
    `{∀ r, Decision (P r)} (pk : Z) (w : World) :
  table (db w) !! pk = None →
  get_object_or_404 table P pk w = (Raise Http404, w).
Proof.
  intros Hpk. unfold get_object_or_404, query. by rewrite bind_run, Hpk.
Qed.

Lemma set_notifications_id (d : DB) : set_notifications (notifications d) d = d.
Proof. by destruct d. Qed.

Lemma has_edge_edge_added (now : Z) (a b x y : User) (d : DB) :
  has_edge a b (edge_added now x y d) ↔ (x = a ∧ y = b) ∨ has_edge a b d.
Proof.
  unfold has_edge, edge_added. simpl.
  rewrite map_Exists_insert by apply next_pk_fresh. done.
Qed.

Lemma has_edge_status_written (a b : User) (pk : Z) (r : FriendRequest.t) (d : DB) :
  has_edge a b (status_written pk r d) ↔ has_edge a b d.
Proof. done. Qed.

Lemma status_of_status_written (pk : Z) (r : FriendRequest.t) (d : DB) :
  status_of pk (status_written pk r d) = Some "accepted".
Proof. unfold status_of, status_written. simpl. by rewrite lookup_insert_eq. Qed.

Lemma status_of_edge_added (now : Z) (a b : User) (pk : Z) (d : DB) :
  status_of pk (edge_added now a b d) = status_of pk d.
Proof. done. Qed.

Lemma Friendship_objects_create_dup (now : Z) (a b : User) (w : World) :
  has_edge a b (db w) →
  Friendship_objects_create now a b w = (Raise IntegrityError, w).
Proof.
  intros Hdup. unfold Friendship_objects_create, query. rewrite bind_run.
  unfold Friendship_exists. by rewrite bool_decide_eq_true_2.
Qed.

Lemma Friendship_objects_create_new (now : Z) (a b : User) (w : World) :
  ¬ has_edge a b (db w) →
  Friendship_objects_create now a b w =
    if decide (outage w = Some O) then (Raise OperationalError, w)
    else (Return tt, mkWorld (edge_added now a b (db w)) (Nat.pred <$> outage w)).
Proof.
  intros Hnew. unfold Friendship_objects_create, query. rewrite bind_run.
  unfold Friendship_exists. by rewrite bool_decide_eq_false_2.
Qed.

(** ** Query sets *)

Global Instance ascending_total {R} (c : R → Z) : Total (ascending c).
Proof. intros x y. unfold ascending. lia. Qed.
Global Instance ascending_trans {R} (c : R → Z) : Transitive (ascending c).
Proof. intros x y z. unfold ascending. lia. Qed.

Lemma elem_of_objects_filter {R} (P : R → Prop) `{∀ r, Decision (P r)}
    (t : gmap Z R) (pk : Z) (r : R) :
  (pk, r) ∈ objects_filter P t ↔ t !! pk = Some r ∧ P r.
Proof.
  unfold objects_filter. rewrite list_elem_of_filter, elem_of_map_to_list.
  simpl. tauto.
Qed.

Lemma NoDup_objects_filter {R} (P : R → Prop) `{∀ r, Decision (P r)}
    (t : gmap Z R) :
  NoDup (objects_filter P t).
Proof. apply NoDup_filter, NoDup_map_to_list. Qed.

Lemma objects_filter_ext {R} (P Q : R → Prop) `{∀ r, Decision (P r)}
    `{∀ r, Decision (Q r)} (t : gmap Z R) :
  (∀ r, P r ↔ Q r) → objects_filter P t = objects_filter Q t.
Proof.
  intros HPQ. unfold objects_filter. apply list_filter_iff.
  intros [k r]. apply HPQ.
Qed.

Lemma order_by_Permutation {R} (c : R → Z) (q : list (Z * R)) :
  order_by c q ≡ₚ q.
Proof. apply merge_sort_Permutation. Qed.

Lemma order_by_desc_Permutation {R} (c : R → Z) (q : list (Z * R)) :
  order_by_desc c q ≡ₚ q.
Proof. apply merge_sort_Permutation. Qed.

Lemma order_by_sorted {R} (c : R → Z) (q : list (Z * R)) :
  StronglySorted (ascending c) (order_by c q).
Proof. apply StronglySorted_merge_sort; apply _. Qed.

Lemma in_thread_sym (a b : User) (m : Message.t) :
  in_thread a b m ↔ in_thread b a m.
Proof. unfold in_thread. tauto. Qed.

(** ** Requests that are no longer pending *)

Lemma accept_processed (now : Z) (user : User) (pk : Z) (w : World)
    (r : FriendRequest.t) :
  friend_requests (db w) !! pk = Some r →
  FriendRequest.status r ≠ "pending" →
  accept now user pk w = (processed_outcome user r, w).
Proof.
  intros Hpk Hst. unfold accept, processed_outcome. rewrite bind_run.
  destruct (decide (FriendRequest.receiver r = user)) as [Hrcv|Hrcv].
  - rewrite (get_object_or_404_found _ _ _ _ r) by done.
    by rewrite decide_True.
  - by rewrite (get_object_or_404_foreign _ _ _ _ r).
Qed.

Lemma decline_processed (user : User) (pk : Z) (w : World)
    (r : FriendRequest.t) :
  friend_requests (db w) !! pk = Some r →
  FriendRequest.status r ≠ "pending" →
  decline user pk w = (processed_outcome user r, w).
Proof.
  intros Hpk Hst. unfold decline, processed_outcome. rewrite bind_run.
  destruct (decide (FriendRequest.receiver r = user)) as [Hrcv|Hrcv].
  - rewrite (get_object_or_404_found _ _ _ _ r) by done.
    by rewrite decide_True.
  - by rewrite (get_object_or_404_foreign _ _ _ _ r).
Qed.

(** C3, as the views have it: on a request whose status is not pending,
    accept and decline issued by the receiver of the request both fail
    with AlreadyProcessed; issued by anybody else they fail with NotFound.
    Either way the store is left exactly as it was: the request keeps all
    its columns and no Friendship row is created. *)
Theorem processed_request_rejected (now : Z) (user : User) (pk : Z)
    (w : World) (r : FriendRequest.t) :
  friend_requests (db w) !! pk = Some r →
  FriendRequest.status r ≠ "pending" →
  let a := accept now user pk w in
  let d := decline user pk w in
  (FriendRequest.receiver r = user →
     fails_with AlreadyProcessed a.1 ∧ fails_with AlreadyProcessed d.1) ∧
  (FriendRequest.receiver r ≠ user →
     fails_with NotFound a.1 ∧ fails_with NotFound d.1) ∧
  a.2 = w ∧ d.2 = w ∧
  friend_requests (db a.2) !! pk = Some r ∧
  friend_requests (db d.2) !! pk = Some r ∧
  friendships (db a.2) = friendships (db w) ∧
  friendships (db d.2) = friendships (db w).
Proof.
  intros Hpk Hst a d. subst a d.
  rewrite (accept_processed _ _ _ _ r), (decline_processed _ _ _ r) by done.
  unfold processed_outcome. simpl.
  split_and!; try done; intros Hrcv.
  - by rewrite decide_True.
  - by rewrite decide_False.
Qed.

Lemma processed_request_rejected_witness :
  let a := accept 7 20 1 (mkWorld db_processed None) in
  let d := decline 20 1 (mkWorld db_processed None) in
  (20 = 20 →
     fails_with AlreadyProcessed a.1 ∧ fails_with AlreadyProcessed d.1) ∧
  (20 ≠ 20 → fails_with NotFound a.1 ∧ fails_with NotFound d.1) ∧
  a.2 = mkWorld db_processed None ∧ d.2 = mkWorld db_processed None ∧
  friend_requests (db a.2) !! 1 = Some (FriendRequest.Build 10 20 "accepted" 5) ∧
  friend_requests (db d.2) !! 1 = Some (FriendRequest.Build 10 20 "accepted" 5) ∧
  friendships (db a.2) = friendships db_processed ∧
  friendships (db d.2) = friendships db_processed.
Proof.
  apply (processed_request_rejected 7 20 1 (mkWorld db_processed None)
           (FriendRequest.Build 10 20 "accepted" 5)).
  - vm_compute. reflexivity.
  - vm_compute. discriminate.
Defined.

(** C3 as stated fails for an acting user who is not the receiver: user 30
    calls accept and decline on the accepted request 10 → 20 and gets
    NotFound from both, not AlreadyProcessed. *)
Lemma processed_request_other_user :
  FriendRequest.status (FriendRequest.Build 10 20 "accepted" 5) ≠ "pending" ∧
  friend_requests db_processed !! 1 = Some (FriendRequest.Build 10 20 "accepted" 5) ∧
  ¬ fails_with AlreadyProcessed (accept 7 30 1 (mkWorld db_processed None)).1 ∧
  ¬ fails_with AlreadyProcessed (decline 30 1 (mkWorld db_processed None)).1 ∧
  fails_with NotFound (accept 7 30 1 (mkWorld db_processed None)).1 ∧
  fails_with NotFound (decline 30 1 (mkWorld db_processed None)).1.
Proof.
  repeat split; vm_compute; congruence.
Qed.

(** ** Marking a notification as read *)

Lemma post_run (user : User) (pk : Z) (w : World) (n : Notification.t) :
  notifications (db w) !! pk = Some n →
  Notification.user n = user →
  outage w ≠ Some O →
  post user pk w =
    (Return marked_read,
     mkWorld (set_notifications
                (<[pk := Notification.with_is_read true n]> (notifications (db w)))
                (db w))
             (Nat.pred <$> outage w)).
Proof.
  intros Hpk Hown Hup. unfold post. rewrite bind_run.
  rewrite (get_object_or_404_found _ _ _ _ n) by done.
  unfold Notification_save. by rewrite bind_run, commit_up.
Qed.

(** C9: for a notification owned by the acting user, marking it read
    twice succeeds both times, the notification is read after the first
    call and after the second, the second call leaves the database as the
    first left it, and marking a notification that is already read leaves
    the database as it was. *)
Theorem mark_read_idempotent (user : User) (pk : Z) (w : World)
    (n : Notification.t) :
  notifications (db w) !! pk = Some n →
  Notification.user n = user →
  up_for 2 w →
  let once := post user pk w in
  let twice := post user pk once.2 in
  once.1 = Return marked_read ∧
  twice.1 = Return marked_read ∧
  Notification.is_read <$> notifications (db once.2) !! pk = Some true ∧
  Notification.is_read <$> notifications (db twice.2) !! pk = Some true ∧
  db twice.2 = db once.2 ∧
  (Notification.is_read n = true → db once.2 = db w).
Proof.
  intros Hpk Hown Hup once twice.
  assert (Honce : once = post user pk w) by done.
  rewrite (post_run _ _ _ n) in Honce by eauto using up_for_S.
  assert (Hpk' : notifications (db once.2) !! pk
                 = Some (Notification.with_is_read true n)).
  { rewrite Honce. simpl. apply lookup_insert_eq. }
  assert (Htwice : twice = post user pk once.2) by done.
  rewrite (post_run _ _ _ (Notification.with_is_read true n)) in Htwice;
    [|done|done|].
  2:{ rewrite Honce. eapply up_for_S. by apply up_for_pred. }
  assert (Hsame : db twice.2 = db once.2).
  { rewrite Htwice. simpl.
    rewrite (insert_id (notifications (db once.2)) pk) by done.
    apply set_notifications_id. }
  split_and!.
  - by rewrite Honce.
  - by rewrite Htwice.
  - by rewrite Hpk'.
  - by rewrite Hsame, Hpk'.
  - done.
  - intros Hread. rewrite Honce. simpl.
    replace (Notification.with_is_read true n) with n
      by (destruct n; simpl in *; by subst).
    rewrite insert_id by done. apply set_notifications_id.
Qed.

Lemma mark_read_idempotent_witness :
  let once := post 20 4 (mkWorld db_notes (Some 2%nat)) in
  let twice := post 20 4 once.2 in
  once.1 = Return marked_read ∧
  twice.1 = Return marked_read ∧
  Notification.is_read <$> notifications (db once.2) !! 4 = Some true ∧
  Notification.is_read <$> notifications (db twice.2) !! 4 = Some true ∧
  db twice.2 = db once.2 ∧
  (false = true → db once.2 = db_notes).
Proof.
  apply (mark_read_idempotent 20 4 (mkWorld db_notes (Some 2%nat))
           (Notification.Build 20 "friend request" false 8)).
  - vm_compute. reflexivity.
  - reflexivity.
  - vm_compute. lia.
Defined.

(** ** Accepting a pending request *)

Lemma accept_duplicate (now : Z) (user : User) (pk : Z) (w : World)
    (r : FriendRequest.t) :
  friend_requests (db w) !! pk = Some r →
  FriendRequest.receiver r = user →
  FriendRequest.status r = "pending" →
  has_edge (FriendRequest.sender r) (FriendRequest.receiver r) (db w) →
  accept now user pk w =
    (Return (mkResponse HTTP_400_BAD_REQUEST [("detail", "Already friends")]), w).
Proof.
  intros Hpk Hrcv Hst Hdup. unfold accept. rewrite bind_run.
  rewrite (get_object_or_404_found _ _ _ _ r) by done.
  rewrite decide_False by (by intros []).
  unfold query. rewrite bind_run.
  unfold Friendship_exists. by rewrite bool_decide_eq_true_2.
Qed.

(** What [accept] does on a pending request with no row from its sender
    to its receiver, by the write at which the store gives up. *)
Lemma accept_pending (now : Z) (user : User) (pk : Z) (w : World)
    (r : FriendRequest.t) :
  friend_requests (db w) !! pk = Some r →
  FriendRequest.receiver r = user →
  FriendRequest.status r = "pending" →
  ¬ has_edge (FriendRequest.sender r) (FriendRequest.receiver r) (db w) →
  let d1 := status_written pk r (db w) in
  let d2 := edge_added now (FriendRequest.sender r) (FriendRequest.receiver r) d1 in
  let d3 := edge_added now (FriendRequest.receiver r) (FriendRequest.sender r) d2 in
  accept now user pk w =
    if decide (outage w = Some 0%nat) then (Raise OperationalError, w)
    else if decide (outage w = Some 1%nat)
    then (Raise OperationalError, mkWorld d1 (Some 0%nat))
    else if decide (has_edge (FriendRequest.receiver r) (FriendRequest.sender r) d2)
    then (Raise IntegrityError,
          mkWorld d2 (Nat.pred <$> (Nat.pred <$> outage w)))
    else if decide (outage w = Some 2%nat)
    then (Raise OperationalError, mkWorld d2 (Some 0%nat))
    else (Return accepted,
          mkWorld d3 (Nat.pred <$> (Nat.pred <$> (Nat.pred <$> outage w)))).
Proof.
  intros Hpk Hrcv Hst Hnew d1 d2 d3. unfold accept. rewrite bind_run.
  rewrite (get_object_or_404_found _ _ _ _ r) by done.
  rewrite decide_False by (by intros []).
  unfold query at 1. rewrite bind_run. cbn [db fst snd].
  unfold Friendship_exists. rewrite bool_decide_eq_false_2 by done.
  rewrite bind_run. unfold FriendRequest_save, commit at 1.
  destruct (decide (outage w = Some 0%nat)) as [|Hup0]; [done|].
  rewrite bind_run. cbn [FriendRequest.sender FriendRequest.receiver
    FriendRequest.with_status FriendRequest.status].
  rewrite Friendship_objects_create_new by done. cbn [db outage].
  fold (status_written pk r (db w)). fold d1.
  destruct (outage w) as [[|[|[|k]]]|] eqn:Hout; try done;
    cbn [fmap option_fmap option_map Nat.pred];
    rewrite ?decide_True by done; rewrite ?decide_False by done; try done.
  all: rewrite bind_run; fold d2.
  all: destruct (decide (has_edge (FriendRequest.receiver r)
                           (FriendRequest.sender r) d2)) as [Hrev|Hrev].
  all: try (by rewrite Friendship_objects_create_dup by done).
  all: rewrite Friendship_objects_create_new by done; cbn [outage db].
  all: rewrite ?decide_True by done; rewrite ?decide_False by done; done.
Qed.

(** Every path through [accept] that returns 200 went through the three
    writes. *)
Lemma accept_ok_inv (now : Z) (user : User) (pk : Z) (w w' : World)
    (r : FriendRequest.t) (resp : Response) :
  friend_requests (db w) !! pk = Some r →
  accept now user pk w = (Return resp, w') →
  status_code resp = HTTP_200_OK →
  let a := FriendRequest.sender r in
  let b := FriendRequest.receiver r in
  ¬ has_edge a b (db w) ∧ ¬ has_edge b a (db w) ∧
  db w' = edge_added now b a (edge_added now a b (status_written pk r (db w))).
Proof.
  intros Hpk Hrun Hok a b.
  destruct (decide (FriendRequest.receiver r = user)) as [Hrcv|Hrcv].
  2:{ unfold accept in Hrun. rewrite bind_run in Hrun.
      by rewrite (get_object_or_404_foreign _ _ _ _ r) in Hrun. }
  destruct (decide (FriendRequest.status r = "pending")) as [Hst|Hst].
  2:{ rewrite (accept_processed _ _ _ _ r) in Hrun by done.
      unfold processed_outcome in Hrun. rewrite decide_True in Hrun by done.
      by simplify_eq. }
  destruct (decide (has_edge a b (db w))) as [Hdup|Hnew].
  { rewrite (accept_duplicate _ _ _ _ r) in Hrun by done. by simplify_eq. }
  rewrite (accept_pending _ _ _ _ r) in Hrun by done.
  destruct (decide (has_edge b a
    (edge_added now a b (status_written pk r (db w))))) as [Hrev|Hrev];
    repeat case_decide; simplify_eq.
  split_and!; [done| |done].
  intros Hold. apply Hrev. apply has_edge_edge_added. right.
  by apply has_edge_status_written.
Qed.

(** C2: when accept succeeds on the request A → B stored under [pk], the
    request is accepted afterwards, the rows Friendship(A,B) and
    Friendship(B,A) both exist afterwards, and neither existed before. *)
Theorem accept_creates_both_edges (now : Z) (user : User) (pk : Z)
    (w w' : World) (r : FriendRequest.t) (resp : Response) :
  friend_requests (db w) !! pk = Some r →
  accept now user pk w = (Return resp, w') →
  status_code resp = HTTP_200_OK →
  let a := FriendRequest.sender r in
  let b := FriendRequest.receiver r in
  status_of pk (db w') = Some "accepted" ∧
  has_edge a b (db w') ∧ has_edge b a (db w') ∧
  ¬ has_edge a b (db w) ∧ ¬ has_edge b a (db w).
Proof.
  intros Hpk Hrun Hok a b.
  destruct (accept_ok_inv _ _ _ _ _ _ _ Hpk Hrun Hok) as (Hab & Hba & ->).
  split_and!; [|..|done|done].
  - rewrite !status_of_edge_added. apply status_of_status_written.
  - apply has_edge_edge_added. right. apply has_edge_edge_added. by left.
  - apply has_edge_edge_added. by left.
Qed.

Lemma accept_creates_both_edges_witness :
  status_of 1 (db (accept 7 20 1 (mkWorld db_pending None)).2) = Some "accepted" ∧
  has_edge 10 20 (db (accept 7 20 1 (mkWorld db_pending None)).2) ∧
  has_edge 20 10 (db (accept 7 20 1 (mkWorld db_pending None)).2) ∧
  ¬ has_edge 10 20 db_pending ∧ ¬ has_edge 20 10 db_pending.
Proof.
  apply (accept_creates_both_edges 7 20 1 (mkWorld db_pending None)
           (accept 7 20 1 (mkWorld db_pending None)).2
           (FriendRequest.Build 10 20 "pending" 5) accepted).
  - vm_compute. reflexivity.
  - vm_compute. reflexivity.
  - reflexivity.
Defined.

(** C1, as the view has it: accept commits the status write and then the
    two Friendship rows as three separate writes.  On a pending request
    A → B without a row (A,B): if it succeeds, the request is accepted
    and both rows exist; once the status write has gone through the
    request stays accepted, also when the creation of a row fails
    afterwards; and if it is the first creation that the store refuses,
    no row has been added. *)
Theorem accept_commits_stepwise (now : Z) (user : User) (pk : Z) (w : World)
    (r : FriendRequest.t) :
  friend_requests (db w) !! pk = Some r →
  FriendRequest.receiver r = user →
  FriendRequest.status r = "pending" →
  ¬ has_edge (FriendRequest.sender r) (FriendRequest.receiver r) (db w) →
  let out := accept now user pk w in
  (succeeds out.1 →
     status_of pk (db out.2) = Some "accepted" ∧
     has_edge (FriendRequest.sender r) (FriendRequest.receiver r) (db out.2) ∧
     has_edge (FriendRequest.receiver r) (FriendRequest.sender r) (db out.2)) ∧
  (outage w ≠ Some 0%nat → status_of pk (db out.2) = Some "accepted") ∧
  (outage w = Some 1%nat →
     out.1 = Raise OperationalError ∧
     friendships (db out.2) = friendships (db w)).
Proof.
  intros Hpk Hrcv Hst Hnew out. subst out.
  rewrite (accept_pending _ _ _ _ r) by done.
  split_and!.
  - intros [resp Hresp]. repeat case_decide; simplify_eq/=.
    split_and!.
    + rewrite !status_of_edge_added. apply status_of_status_written.
    + apply has_edge_edge_added. right. apply has_edge_edge_added. by left.
    + apply has_edge_edge_added. by left.
  - intros Hup. repeat case_decide; simplify_eq/=;
      rewrite ?status_of_edge_added; apply status_of_status_written.
  - intros Hone. rewrite Hone. by repeat case_decide; simplify_eq/=.
Qed.

Lemma accept_commits_stepwise_witness :
  let out := accept 7 20 1 (mkWorld db_pending (Some 2%nat)) in
  (succeeds out.1 →
     status_of 1 (db out.2) = Some "accepted" ∧
     has_edge 10 20 (db out.2) ∧ has_edge 20 10 (db out.2)) ∧
  (Some 2%nat ≠ Some 0%nat → status_of 1 (db out.2) = Some "accepted") ∧
  (Some 2%nat = Some 1%nat →
     out.1 = Raise OperationalError ∧
     friendships (db out.2) = friendships db_pending).
Proof.
  apply (accept_commits_stepwise 7 20 1 (mkWorld db_pending (Some 2%nat))
           (FriendRequest.Build 10 20 "pending" 5)).
  - vm_compute. reflexivity.
  - reflexivity.
  - reflexivity.
  - by_compute.
Defined.

(** C1 as stated fails: the store takes the status write and refuses the
    first Friendship row; accept raises and leaves the request accepted
    with no row between 10 and 20. *)
Lemma accept_not_atomic :
  let out := accept 7 20 1 (mkWorld db_pending (Some 1%nat)) in
  out.1 = Raise OperationalError ∧
  status_of 1 db_pending = Some "pending" ∧
  status_of 1 (db out.2) = Some "accepted" ∧
  ¬ has_edge 10 20 (db out.2) ∧ ¬ has_edge 20 10 (db out.2).
Proof.
  split_and!; by_compute.
Qed.

(** ** The duplicate check of accept *)

(** C4, as the view has it: on a pending request A → B, accept fails with
    DuplicateFriendship when the row Friendship(A,B), from the sender to
    the receiver, exists; in a store that holds every friendship in both
    directions that is whenever a row exists between A and B in either
    direction.  The check comes before any write: the world is left as it
    was. *)
Theorem accept_rejects_duplicate (now : Z) (user : User) (pk : Z) (w : World)
    (r : FriendRequest.t) :
  friend_requests (db w) !! pk = Some r →
  FriendRequest.receiver r = user →
  FriendRequest.status r = "pending" →
  has_edge (FriendRequest.sender r) (FriendRequest.receiver r) (db w) ∨
    (paired (db w) ∧
     has_edge (FriendRequest.receiver r) (FriendRequest.sender r) (db w)) →
  let out := accept now user pk w in
  fails_with DuplicateFriendship out.1 ∧ out.2 = w.
Proof.
  intros Hpk Hrcv Hst Hdup out. subst out.
  rewrite (accept_duplicate _ _ _ _ r); [done..|].
  destruct Hdup as [Hfwd|[Hpair Hrev]]; [done|by apply Hpair].
Qed.

Lemma accept_rejects_duplicate_witness :
  let out := accept 9 20 2 (mkWorld db_friends None) in
  fails_with DuplicateFriendship out.1 ∧ out.2 = mkWorld db_friends None.
Proof.
  apply (accept_rejects_duplicate 9 20 2 (mkWorld db_friends None)
           (FriendRequest.Build 10 20 "pending" 8)).
  - vm_compute. reflexivity.
  - reflexivity.
  - reflexivity.
  - left. by_compute.
Defined.

(** C4 as stated fails when only the row from the receiver to the sender
    exists: the check, which looks for the row 10 → 20, lets the request
    through; the status is written and the row 10 → 20 is stored before
    the second creation is refused, so accept neither answers
    DuplicateFriendship nor leaves the store as it was. *)
Lemma accept_misses_reverse_edge :
  let out := accept 7 20 1 (mkWorld db_reverse_only None) in
  has_edge 20 10 db_reverse_only ∧
  status_of 1 db_reverse_only = Some "pending" ∧
  ¬ fails_with DuplicateFriendship out.1 ∧
  status_of 1 (db out.2) = Some "accepted" ∧
  ¬ has_edge 10 20 db_reverse_only ∧
  has_edge 10 20 (db out.2).
Proof.
  split_and!; try by_compute.
  vm_compute. discriminate.
Qed.

(** ** What accept itself does to the notification table *)

Lemma accept_notifications (now : Z) (user : User) (pk : Z) (w : World) :
  notifications (db (accept now user pk w).2) = notifications (db w).
Proof.
  destruct (friend_requests (db w) !! pk) as [r|] eqn:Hpk.
  2:{ unfold accept. rewrite bind_run.
      by rewrite get_object_or_404_missing. }
  destruct (decide (FriendRequest.status r = "pending")) as [Hst|Hst].
  2:{ by rewrite (accept_processed _ _ _ _ r). }
  destruct (decide (FriendRequest.receiver r = user)) as [Hrcv|Hrcv].
  2:{ unfold accept. rewrite bind_run.
      by rewrite (get_object_or_404_foreign _ _ _ _ r). }
  destruct (decide (has_edge (FriendRequest.sender r)
                      (FriendRequest.receiver r) (db w))) as [Hdup|Hnew].
  { by rewrite (accept_duplicate _ _ _ _ r). }
  rewrite (accept_pending _ _ _ _ r) by done.
  by repeat case_decide.
Qed.

(** ** Sending a message *)

(** C6, against the refusals of send that the specification describes:
    a message of a user to himself, whatever its body, and a message with
    an empty body, whoever its receiver, are refused with InvalidTarget
    and leave the world as it was, so that no message is created. *)
Theorem send_refuses_invalid_target (now : Z) (a receiver : User)
    (body : string) (w : World) :
  ChatMessage_create now a a body w = (Return invalid_target, w) ∧
  ChatMessage_create now a receiver "" w = (Return invalid_target, w) ∧
  messages (db (ChatMessage_create now a a body w).2) = messages (db w) ∧
  messages (db (ChatMessage_create now a receiver "" w).2) = messages (db w).
Proof.
  assert (Hself : ChatMessage_create now a a body w = (Return invalid_target, w)).
  { unfold ChatMessage_create, MessageSerializer_is_valid.
    rewrite bool_decide_eq_false_2; [done|]. by intros [? _]. }
  assert (Hempty : ChatMessage_create now a receiver "" w
                   = (Return invalid_target, w)).
  { unfold ChatMessage_create, MessageSerializer_is_valid.
    rewrite bool_decide_eq_false_2; [done|]. by intros [_ ?]. }
  by rewrite Hself, Hempty.
Qed.

(** ** The thread between two users *)

Lemma thread_answer_sym (a b : User) (d : DB) (l : list (Z * Message.t)) :
  thread_answer a b d l ↔ thread_answer b a d l.
Proof.
  unfold thread_answer.
  by rewrite (objects_filter_ext (in_thread a b) (in_thread b a) _ (in_thread_sym a b)).
Qed.

(** C7, as the view has it: an answer to the thread of A with B holds
    exactly the stored messages sent by A to B or by B to A, each once, in
    ascending order of timestamp, and the view returns such an answer.  An
    answer to the thread of B with A holds the same messages, and it is
    the same sequence when no two messages of the thread have the same
    timestamp; the order of messages with equal timestamps is left to
    the store. *)
Theorem thread_answers_agree (int : string → option Z) (a b : User)
    (sb : string) (d : DB) (l1 l2 : list (Z * Message.t)) :
  int sb = Some b →
  thread_answer a b d l1 → thread_answer b a d l2 →
  thread_answer a b d (ChatMessage_get_queryset int a (Some sb) d) ∧
  (∀ (pk : Z) (m : Message.t),
     (pk, m) ∈ l1 ↔
     messages d !! pk = Some m ∧
     ((Message.sender m = a ∧ Message.receiver m = b) ∨
      (Message.sender m = b ∧ Message.receiver m = a))) ∧
  NoDup l1 ∧
  StronglySorted (λ x y, Message.timestamp x.2 ≤ Message.timestamp y.2) l1 ∧
  l1 ≡ₚ l2 ∧
  ((∀ x y : Z * Message.t,
      x ∈ l1 → y ∈ l1 →
      Message.timestamp x.2 = Message.timestamp y.2 → x = y) →
   l1 = l2).
Proof.
  intros Hb [Hperm1 Hsorted1] [Hperm2 Hsorted2]%thread_answer_sym.
  assert (Hperm : l1 ≡ₚ l2) by by rewrite Hperm1, Hperm2.
  split_and!.
  - unfold ChatMessage_get_queryset. rewrite Hb. split.
    + apply order_by_Permutation.
    + apply order_by_sorted.
  - intros pk m. rewrite Hperm1. by rewrite elem_of_objects_filter.
  - rewrite Hperm1. apply NoDup_objects_filter.
  - done.
  - done.
  - intros Hdistinct.
    apply (StronglySorted_unique_strong (ascending Message.timestamp));
      [|done..].
    intros x y Hx Hy Hxy Hyx. apply Hdistinct; [done|by rewrite Hperm|].
    unfold ascending in Hxy, Hyx. lia.
Qed.

Lemma thread_answers_agree_witness :
  let l := ChatMessage_get_queryset decimal 10 (Some "20") db_chat in
  thread_answer 10 20 db_chat l ∧
  (∀ (pk : Z) (m : Message.t),
     (pk, m) ∈ l ↔
     messages db_chat !! pk = Some m ∧
     ((Message.sender m = 10 ∧ Message.receiver m = 20) ∨
      (Message.sender m = 20 ∧ Message.receiver m = 10))) ∧
  NoDup l ∧
  StronglySorted (λ x y, Message.timestamp x.2 ≤ Message.timestamp y.2) l ∧
  l ≡ₚ ChatMessage_get_queryset decimal 20 (Some "10") db_chat ∧
  ((∀ x y : Z * Message.t,
      x ∈ l → y ∈ l →
      Message.timestamp x.2 = Message.timestamp y.2 → x = y) →
   l = ChatMessage_get_queryset decimal 20 (Some "10") db_chat).
Proof.
  apply (thread_answers_agree decimal 10 20 "20" db_chat).
  - vm_compute. reflexivity.
  - split; [apply order_by_Permutation|apply order_by_sorted].
  - split; [apply order_by_Permutation|apply order_by_sorted].
Defined.

(** C7 as stated fails when two messages of the thread have the same
    timestamp: users 10 and 20 wrote to each other at time 8; the two
    messages in either order are in ascending order of timestamp, so the
    store may answer the thread of 10 with 20 with one order and the
    thread of 20 with 10 with the other. *)
Lemma thread_ties_may_differ :
  let m1 := (1, Message.Build 10 20 "now?" 8) in
  let m2 := (2, Message.Build 20 10 "now!" 8) in
  thread_answer 10 20 db_ties [m1; m2] ∧
  thread_answer 20 10 db_ties [m2; m1] ∧
  [m1; m2] ≠ [m2; m1].
Proof.
  intros m1 m2.
  assert (H12 : objects_filter (in_thread 10 20) (messages db_ties) ≡ₚ [m1; m2]).
  { first
      [ replace (objects_filter (in_thread 10 20) (messages db_ties))
          with [m1; m2] by by_compute; done
      | replace (objects_filter (in_thread 10 20) (messages db_ties))
          with [m2; m1] by by_compute; apply Permutation_swap ]. }
  assert (Hsorted : ∀ x y : Z * Message.t,
            Message.timestamp x.2 = 8 → Message.timestamp y.2 = 8 →
            StronglySorted (ascending Message.timestamp) [x; y]).
  { intros x y Hx Hy. repeat constructor. unfold ascending. lia. }
  split_and!.
  - split; [by rewrite H12|by apply Hsorted].
  - apply thread_answer_sym. split; [|by apply Hsorted].
    rewrite H12. apply Permutation_swap.
  - discriminate.
Qed.

(** C8: when the counterpart is absent or is not the text of an integer,
    the thread is the empty sequence. *)
Theorem thread_without_counterpart (int : string → option Z) (user : User)
    (friend_id : option string) (d : DB) :
  friend_id = None ∨ (∃ s, friend_id = Some s ∧ int s = None) →
  ChatMessage_get_queryset int user friend_id d = [].
Proof.
  intros [->|(s & -> & Hbad)]; [done|].
  unfold ChatMessage_get_queryset. by rewrite Hbad.
Qed.

Lemma thread_without_counterpart_witness :
  ChatMessage_get_queryset decimal 10 (Some "abc") db_chat = [] ∧
  ChatMessage_get_queryset decimal 10 None db_chat = [].
Proof.
  split.
  - apply (thread_without_counterpart decimal 10 (Some "abc") db_chat).
    right. exists "abc". split; vm_compute; reflexivity.
  - apply (thread_without_counterpart decimal 10 None db_chat).
    left. reflexivity.
Defined.

(** ** Reads are scoped to the acting user *)

(** C10: the incoming requests listed for a user are stored requests
    whose receiver is that user; the notifications listed for a user are
    stored notifications owned by that user; every message of a thread
    read by a user is a stored message sent or received by that user; and
    a notification owned by somebody else is not found by mark-read,
    which leaves the world as it was. *)
Theorem reads_are_scoped (int : string → option Z) (user : User)
    (friend_id : option string) (d : DB) :
  (∀ (pk : Z) (r : FriendRequest.t),
     (pk, r) ∈ FriendRequest_get_queryset user d →
     friend_requests d !! pk = Some r ∧ FriendRequest.receiver r = user) ∧
  (∀ (pk : Z) (n : Notification.t),
     (pk, n) ∈ Notification_get_queryset user d →
     notifications d !! pk = Some n ∧ Notification.user n = user) ∧
  (∀ (pk : Z) (m : Message.t),
     (pk, m) ∈ ChatMessage_get_queryset int user friend_id d →
     messages d !! pk = Some m ∧
     (Message.sender m = user ∨ Message.receiver m = user)) ∧
  (∀ (pk : Z) (n : Notification.t) (o : option nat),
     notifications d !! pk = Some n → Notification.user n ≠ user →
     post user pk (mkWorld d o) = (Raise Http404, mkWorld d o)).
Proof.
  split_and!.
  - intros pk r. unfold FriendRequest_get_queryset.
    rewrite order_by_desc_Permutation. by rewrite elem_of_objects_filter.
  - intros pk n. unfold Notification_get_queryset.
    rewrite order_by_desc_Permutation. by rewrite elem_of_objects_filter.
  - intros pk m. unfold ChatMessage_get_queryset.
    destruct friend_id as [s|]; [|by intros ?%elem_of_nil].
    destruct (int s) as [f|]; [|by intros ?%elem_of_nil].
    rewrite order_by_Permutation, elem_of_objects_filter.
    unfold in_thread. tauto.
  - intros pk n o Hpk Hown. unfold post. rewrite bind_run.
    by rewrite (get_object_or_404_foreign _ _ _ _ n).
Qed.

(** ** The scenarios of the specification *)

(** User 10 writes "hi" to user 20, who answers "hello": the thread of 10
    with 20 is the two messages in that order, and the messages exchanged
    with user 30 are not part of it. *)
Example scenario_thread :
  ChatMessage_get_queryset decimal 10 (Some "20") db_chat
    = [(1, Message.Build 10 20 "hi" 3); (2, Message.Build 20 10 "hello" 4)].
Proof. by_compute. Qed.

(** User 20 accepts the request of user 10 twice: the first call succeeds,
    the second fails with AlreadyProcessed, and one pair of rows is
    stored. *)
Example scenario_accept_twice :
  let first := accept 7 20 1 (mkWorld db_pending None) in
  let second := accept 8 20 1 first.2 in
  first.1 = Return accepted ∧
  fails_with AlreadyProcessed second.1 ∧
  second.2 = first.2 ∧
  map_to_list (friendships (db second.2))
    ≡ₚ [(0, Friendship.Build 10 20 7); (1, Friendship.Build 20 10 7)].
Proof.
  split_and!; try by_compute.
  vm_compute. apply Permutation_swap.
Qed.

(** User 30 accepts a request addressed to user 20: NotFound, and the
    request is still pending. *)
Example scenario_accept_by_other_user :
  let out := accept 7 30 1 (mkWorld db_pending None) in
  fails_with NotFound out.1 ∧ status_of 1 (db out.2) = Some "pending".
Proof. split; by_compute. Qed.

(** ** The life of a friend request *)

Lemma accept_not_addressed (now : Z) (user : User) (pk : Z) (w : World) :
  (∀ r, friend_requests (db w) !! pk = Some r → FriendRequest.receiver r ≠ user) →
  accept now user pk w = (Raise Http404, w).
Proof.
  intros Hno. unfold accept. rewrite bind_run.
  destruct (friend_requests (db w) !! pk) as [r|] eqn:Hpk.
  - by rewrite (get_object_or_404_foreign _ _ _ _ r) by eauto.
  - by rewrite get_object_or_404_missing.
Qed.

Lemma decline_not_addressed (user : User) (pk : Z) (w : World) :
  (∀ r, friend_requests (db w) !! pk = Some r → FriendRequest.receiver r ≠ user) →
  decline user pk w = (Raise Http404, w).
Proof.
  intros Hno. unfold decline. rewrite bind_run.
  destruct (friend_requests (db w) !! pk) as [r|] eqn:Hpk.
  - by rewrite (get_object_or_404_foreign _ _ _ _ r) by eauto.
  - by rewrite get_object_or_404_missing.
Qed.

Lemma decline_pending (user : User) (pk : Z) (w : World) (r : FriendRequest.t) :
  friend_requests (db w) !! pk = Some r →
  FriendRequest.receiver r = user →
  FriendRequest.status r = "pending" →
  decline user pk w =
    if decide (outage w = Some O) then (Raise OperationalError, w)
    else (Return declined,
          mkWorld (status_declined pk r (db w)) (Nat.pred <$> outage w)).
Proof.
  intros Hpk Hrcv Hst. unfold decline. rewrite bind_run.
  rewrite (get_object_or_404_found _ _ _ _ r) by done.
  rewrite decide_False by (by intros []).
  rewrite bind_run. unfold FriendRequest_save, commit.
  by case_decide.
Qed.

(** The database [accept] leaves behind is the one it found, or the one
    after one, two or three of its writes on a pending request addressed
    to the acting user. *)
Lemma accept_db (now : Z) (user : User) (pk : Z) (w : World) :
  db (accept now user pk w).2 = db w ∨
  ∃ r, friend_requests (db w) !! pk = Some r ∧
       FriendRequest.receiver r = user ∧
       FriendRequest.status r = "pending" ∧
       let a := FriendRequest.sender r in
       let b := FriendRequest.receiver r in
       let d1 := status_written pk r (db w) in
       let d2 := edge_added now a b d1 in
       let d3 := edge_added now b a d2 in
       db (accept now user pk w).2 = d1 ∨
       db (accept now user pk w).2 = d2 ∨
       db (accept now user pk w).2 = d3.
Proof.
  destruct (friend_requests (db w) !! pk) as [r|] eqn:Hpk.
  2:{ left. rewrite accept_not_addressed; [done|]. intros r. by rewrite Hpk. }
  destruct (decide (FriendRequest.receiver r = user)) as [Hrcv|Hrcv].
  2:{ left. rewrite accept_not_addressed; [done|]. intros r'. rewrite Hpk.
      by intros [= <-]. }
  destruct (decide (FriendRequest.status r = "pending")) as [Hst|Hst].
  2:{ left. by rewrite (accept_processed _ _ _ _ r). }
  destruct (decide (has_edge (FriendRequest.sender r)
                      (FriendRequest.receiver r) (db w))) as [Hdup|Hnew].
  { left. by rewrite (accept_duplicate _ _ _ _ r). }
  rewrite (accept_pending _ _ _ _ r) by done.
  repeat case_decide; simpl; eauto 10.
Qed.

(** The database [decline] leaves behind is the one it found or the one
    after its write on a pending request addressed to the acting user. *)
Lemma decline_db (user : User) (pk : Z) (w : World) :
  db (decline user pk w).2 = db w ∨
  ∃ r, friend_requests (db w) !! pk = Some r ∧
       FriendRequest.receiver r = user ∧
       FriendRequest.status r = "pending" ∧
       db (decline user pk w).2 = status_declined pk r (db w).
Proof.
  destruct (friend_requests (db w) !! pk) as [r|] eqn:Hpk.
  2:{ left. rewrite decline_not_addressed; [done|]. intros r. by rewrite Hpk. }
  destruct (decide (FriendRequest.receiver r = user)) as [Hrcv|Hrcv].
  2:{ left. rewrite decline_not_addressed; [done|]. intros r'. rewrite Hpk.
      by intros [= <-]. }
  destruct (decide (FriendRequest.status r = "pending")) as [Hst|Hst].
  2:{ left. by rewrite (decline_processed _ _ _ r). }
  rewrite (decline_pending _ _ _ r) by done.
  case_decide; simpl; eauto 10.
Qed.

(** X1: a request that is not stored under the key, or is stored there
    but addressed to somebody else, is not found by accept nor by decline,
    whatever its status, and the world is left as it was. *)
Theorem request_not_found (now : Z) (user : User) (pk : Z) (w : World) :
  (∀ r, friend_requests (db w) !! pk = Some r → FriendRequest.receiver r ≠ user) →
  fails_with NotFound (accept now user pk w).1 ∧
  fails_with NotFound (decline user pk w).1 ∧
  (accept now user pk w).2 = w ∧ (decline user pk w).2 = w.
Proof.
  intros Hno. by rewrite accept_not_addressed, decline_not_addressed.
Qed.

Lemma request_not_found_witness :
  fails_with NotFound (accept 7 20 5 (mkWorld db_pending None)).1 ∧
  fails_with NotFound (decline 20 5 (mkWorld db_pending None)).1 ∧
  (accept 7 20 5 (mkWorld db_pending None)).2 = mkWorld db_pending None ∧
  (decline 20 5 (mkWorld db_pending None)).2 = mkWorld db_pending None.
Proof.
  apply (request_not_found 7 20 5 (mkWorld db_pending None)).
  intros r Hr. vm_compute in Hr. discriminate.
Defined.

(** X2: declining a pending request as its receiver, on a store that
    takes the write, answers 200 with the status declined, stores the
    request with the status declined and its other columns as they were,
    and changes no other request, no friendship, message or
    notification. *)
Theorem decline_marks_declined (user : User) (pk : Z) (w : World)
    (r : FriendRequest.t) :
  friend_requests (db w) !! pk = Some r →
  FriendRequest.receiver r = user →
  FriendRequest.status r = "pending" →
  outage w ≠ Some O →
  let out := decline user pk w in
  out.1 = Return declined ∧
  friend_requests (db out.2)
    = <[pk := FriendRequest.with_status "declined" r]> (friend_requests (db w)) ∧
  friendships (db out.2) = friendships (db w) ∧
  messages (db out.2) = messages (db w) ∧
  notifications (db out.2) = notifications (db w).
Proof.
  intros Hpk Hrcv Hst Hup out. subst out.
  rewrite (decline_pending _ _ _ r) by done. by rewrite decide_False.
Qed.

Lemma decline_marks_declined_witness :
  let out := decline 20 1 (mkWorld db_pending None) in
  out.1 = Return declined ∧
  friend_requests (db out.2)
    = <[1 := FriendRequest.with_status "declined"
              (FriendRequest.Build 10 20 "pending" 5)]> (friend_requests db_pending) ∧
  friendships (db out.2) = friendships db_pending ∧
  messages (db out.2) = messages db_pending ∧
  notifications (db out.2) = notifications db_pending.
Proof.
  apply (decline_marks_declined 20 1 (mkWorld db_pending None)
           (FriendRequest.Build 10 20 "pending" 5)).
  - vm_compute. reflexivity.
  - reflexivity.
  - reflexivity.
  - vm_compute. discriminate.
Defined.

Lemma accept_returns (now : Z) (user : User) (pk : Z) (w w' : World)
    (resp : Response) :
  accept now user pk w = (Return resp, w') →
  (w' = w ∧ status_code resp = HTTP_400_BAD_REQUEST) ∨
  ∃ r, friend_requests (db w) !! pk = Some r ∧
       FriendRequest.receiver r = user ∧
       resp = accepted ∧
       db w' = edge_added now (FriendRequest.receiver r) (FriendRequest.sender r)
                 (edge_added now (FriendRequest.sender r) (FriendRequest.receiver r)
                    (status_written pk r (db w))).
Proof.
  intros Hrun.
  destruct (friend_requests (db w) !! pk) as [r|] eqn:Hpk.
  2:{ rewrite accept_not_addressed in Hrun; [done|]. intros r. by rewrite Hpk. }
  destruct (decide (FriendRequest.receiver r = user)) as [Hrcv|Hrcv].
  2:{ rewrite accept_not_addressed in Hrun; [done|]. intros r'. rewrite Hpk.
      by intros [= <-]. }
  destruct (decide (FriendRequest.status r = "pending")) as [Hst|Hst].
  2:{ rewrite (accept_processed _ _ _ _ r) in Hrun by done. left.
      unfold processed_outcome in Hrun. rewrite decide_True in Hrun by done.
      by simplify_eq. }
  destruct (decide (has_edge (FriendRequest.sender r)
                      (FriendRequest.receiver r) (db w))) as [Hdup|Hnew].
  { rewrite (accept_duplicate _ _ _ _ r) in Hrun by done. left. by simplify_eq. }
  rewrite (accept_pending _ _ _ _ r) in Hrun by done.
  repeat case_decide; simplify_eq. right. by exists r.
Qed.

Lemma decline_returns (user : User) (pk : Z) (w w' : World) (resp : Response) :
  decline user pk w = (Return resp, w') →
  (w' = w ∧ status_code resp = HTTP_400_BAD_REQUEST) ∨
  ∃ r, friend_requests (db w) !! pk = Some r ∧
       FriendRequest.receiver r = user ∧
       resp = declined ∧
       db w' = status_declined pk r (db w).
Proof.
  intros Hrun.
  destruct (friend_requests (db w) !! pk) as [r|] eqn:Hpk.
  2:{ rewrite decline_not_addressed in Hrun; [done|]. intros r. by rewrite Hpk. }
  destruct (decide (FriendRequest.receiver r = user)) as [Hrcv|Hrcv].
  2:{ rewrite decline_not_addressed in Hrun; [done|]. intros r'. rewrite Hpk.
      by intros [= <-]. }
  destruct (decide (FriendRequest.status r = "pending")) as [Hst|Hst].
  2:{ rewrite (decline_processed _ _ _ r) in Hrun by done. left.
      unfold processed_outcome in Hrun. rewrite decide_True in Hrun by done.
      by simplify_eq. }
  rewrite (decline_pending _ _ _ r) in Hrun by done.
  case_decide; simplify_eq. right. by exists r.
Qed.

(** ** Notifications for the counterparty *)



(** A request that has just been accepted or declined is rejected by both
    views. *)
Lemma processed_row_rejected (now : Z) (user : User) (pk : Z) (w : World)
    (r : FriendRequest.t) (s : string) :
  friend_requests (db w) !! pk = Some (FriendRequest.with_status s r) →
  FriendRequest.receiver r = user →
  s ≠ "pending" →
  fails_with AlreadyProcessed (accept now user pk w).1 ∧
  fails_with AlreadyProcessed (decline user pk w).1 ∧
  (accept now user pk w).2 = w ∧ (decline user pk w).2 = w.
Proof.
  intros Hpk Hrcv Hs.
  rewrite (accept_processed _ _ _ _ _ Hpk), (decline_processed _ _ _ _ Hpk) by done.
  unfold processed_outcome. simpl. by rewrite decide_True.
Qed.

Lemma request_step_refl (target : string) (user : User) (pk : Z) (d d' : DB) :
  friend_requests d' = friend_requests d → request_step target user pk d d'.
Proof.
  intros Heq. split.
  - intros k r Hk. exists r. rewrite Heq. split_and!; [done|done|by left].
  - intros k Hk. by rewrite Heq.
Qed.

Lemma request_step_write (target : string) (user : User) (pk : Z)
    (r0 : FriendRequest.t) (d d' : DB) :
  friend_requests d !! pk = Some r0 →
  FriendRequest.receiver r0 = user →
  FriendRequest.status r0 = "pending" →
  friend_requests d' = <[pk := FriendRequest.with_status target r0]> (friend_requests d) →
  request_step target user pk d d'.
Proof.
  intros Hpk Hrcv Hst Heq. split.
  - intros k r Hk. rewrite Heq. destruct (decide (k = pk)) as [->|Hne].
    + rewrite lookup_insert_eq. simplify_eq.
      eexists. split_and!; [done|done|]. right. by split_and!.
    + rewrite lookup_insert_ne by done. exists r. split_and!; [done|done|by left].
  - intros k Hk. rewrite Heq. rewrite lookup_insert_ne; [done|congruence].
Qed.

(** X4: whatever accept and decline answer, they add and remove no
    request, leave the sender, the receiver and the creation time of
    every request as they were, and change no status but that of a
    pending request stored under the key they are given and addressed to
    the acting user, which accept can only turn into accepted and decline
    into declined; neither touches a message. *)
Theorem request_views_step (now : Z) (user : User) (pk : Z) (w : World) :
  request_step "accepted" user pk (db w) (db (accept now user pk w).2) ∧
  request_step "declined" user pk (db w) (db (decline user pk w).2) ∧
  messages (db (accept now user pk w).2) = messages (db w) ∧
  messages (db (decline user pk w).2) = messages (db w).
Proof.
  split_and!.
  - destruct (accept_db now user pk w) as [->|(r & Hpk & Hrcv & Hst & Hdb)].
    + by apply request_step_refl.
    + apply (request_step_write _ _ _ r); [done..|].
      by destruct Hdb as [->|[->| ->]].
  - destruct (decline_db user pk w) as [->|(r & Hpk & Hrcv & Hst & ->)].
    + by apply request_step_refl.
    + by apply (request_step_write _ _ _ r).
  - destruct (accept_db now user pk w) as [->|(r & _ & _ & _ & Hdb)]; [done|].
    by destruct Hdb as [->|[->| ->]].
  - by destruct (decline_db user pk w) as [->|(r & _ & _ & _ & ->)].
Qed.

Lemma accept_request_step (now : Z) (user : User) (pk : Z) (w : World) :
  request_step "accepted" user pk (db w) (db (accept now user pk w).2).
Proof.
  destruct (accept_db now user pk w) as [->|(r & Hpk & Hrcv & Hst & Hdb)].
  - by apply request_step_refl.
  - apply (request_step_write _ _ _ r); [done..|].
    by destruct Hdb as [->|[->| ->]].
Qed.

Lemma decline_request_step (user : User) (pk : Z) (w : World) :
  request_step "declined" user pk (db w) (db (decline user pk w).2).
Proof.
  destruct (decline_db user pk w) as [->|(r & Hpk & Hrcv & Hst & ->)].
  - by apply request_step_refl.
  - by apply (request_step_write _ _ _ r).
Qed.

Lemma settled_step (target : string) (user' : User) (pk' : Z) (user : User)
    (pk : Z) (d d' : DB) :
  request_step target user' pk' d d' → settled user pk d → settled user pk d'.
Proof.
  intros [Hrows _] (r & Hpk & Hrcv & Hst).
  destruct (Hrows pk r Hpk) as (r' & Hpk' & (_ & Hr & _) & Hstatus).
  exists r'. split_and!; [done|congruence|].
  destruct Hstatus as [Hsame|(_ & _ & Hpending & _)]; [congruence|done].
Qed.

Lemma settled_run_calls (user : User) (pk : Z) (cs : list Call) (w : World) :
  settled user pk (db w) → settled user pk (db (run_calls cs w)).
Proof.
  revert w. induction cs as [|c cs IH]; intros w Hw; [done|].
  apply IH. destruct c as [now user' pk'|user' pk']; simpl.
  - by eapply settled_step; [apply accept_request_step|].
  - by eapply settled_step; [apply decline_request_step|].
Qed.

Lemma settled_rejected (now : Z) (user : User) (pk : Z) (w : World) :
  settled user pk (db w) →
  fails_with AlreadyProcessed (accept now user pk w).1 ∧
  fails_with AlreadyProcessed (decline user pk w).1 ∧
  (accept now user pk w).2 = w ∧ (decline user pk w).2 = w.
Proof.
  intros (r & Hpk & Hrcv & Hst).
  rewrite (accept_processed _ _ _ _ r), (decline_processed _ _ _ r) by done.
  unfold processed_outcome. simpl. by rewrite decide_True.
Qed.

(** X3: among calls of accept and decline, accepted and declined are
    final.  Once accept or decline has answered 200 for a request,
    whatever calls of accept and decline follow, by any users on any
    keys and whatever they answer, a further accept or decline of that
    request by the same user fails with AlreadyProcessed and leaves the
    world as it found it. *)
Theorem processed_is_final (now now' : Z) (user : User) (pk : Z)
    (w w' : World) (resp : Response) (cs : list Call) :
  accept now user pk w = (Return resp, w') ∨
    decline user pk w = (Return resp, w') →
  status_code resp = HTTP_200_OK →
  let w'' := run_calls cs w' in
  fails_with AlreadyProcessed (accept now' user pk w'').1 ∧
  fails_with AlreadyProcessed (decline user pk w'').1 ∧
  (accept now' user pk w'').2 = w'' ∧ (decline user pk w'').2 = w''.
Proof.
  intros Hrun Hok w''. apply settled_rejected, settled_run_calls.
  destruct Hrun as [Hrun|Hrun].
  - destruct (accept_returns _ _ _ _ _ _ Hrun)
      as [[_ Hbad]|(r & Hpk & Hrcv & -> & Hdb)];
      [rewrite Hok in Hbad; discriminate|].
    exists (FriendRequest.with_status "accepted" r). split_and!; [|done..].
    rewrite Hdb. simpl. apply lookup_insert_eq.
  - destruct (decline_returns _ _ _ _ _ Hrun)
      as [[_ Hbad]|(r & Hpk & Hrcv & -> & Hdb)];
      [rewrite Hok in Hbad; discriminate|].
    exists (FriendRequest.with_status "declined" r). split_and!; [|done..].
    rewrite Hdb. simpl. apply lookup_insert_eq.
Qed.

Lemma processed_is_final_witness :
  let w' := (accept 7 20 1 (mkWorld db_pending None)).2 in
  let w'' := run_calls [CallDecline 30 1; CallAccept 8 10 1; CallDecline 20 1] w' in
  fails_with AlreadyProcessed (accept 9 20 1 w'').1 ∧
  fails_with AlreadyProcessed (decline 20 1 w'').1 ∧
  (accept 9 20 1 w'').2 = w'' ∧ (decline 20 1 w'').2 = w''.
Proof.
  apply (processed_is_final 7 9 20 1 (mkWorld db_pending None)
           (accept 7 20 1 (mkWorld db_pending None)).2 accepted).
  - left. vm_compute. reflexivity.
  - reflexivity.
Defined.

(** X5: whatever accept answers, it removes no friendship row, and a row
    that it adds joins the sender and the receiver of a request stored
    under the given key that was pending and addressed to the acting user;
    decline leaves the friendship table as it was. *)
Theorem friendship_rows_added (now : Z) (user : User) (pk : Z) (w : World) :
  (∀ x y : User,
     has_edge x y (db w) → has_edge x y (db (accept now user pk w).2)) ∧
  (∀ x y : User,
     has_edge x y (db (accept now user pk w).2) →
     has_edge x y (db w) ∨
     ∃ r, friend_requests (db w) !! pk = Some r ∧
          FriendRequest.receiver r = user ∧
          FriendRequest.status r = "pending" ∧
          ((x = FriendRequest.sender r ∧ y = FriendRequest.receiver r) ∨
           (x = FriendRequest.receiver r ∧ y = FriendRequest.sender r))) ∧
  friendships (db (decline user pk w).2) = friendships (db w).
Proof.
  split_and!.
  - intros x y Hxy.
    destruct (accept_db now user pk w) as [->|(r & _ & _ & _ & Hdb)]; [done|].
    destruct Hdb as [->|[->| ->]]; [done|..];
      rewrite ?has_edge_edge_added; eauto.
  - intros x y Hxy.
    destruct (accept_db now user pk w) as [Hdb|(r & Hpk & Hrcv & Hst & Hdb)].
    { left. by rewrite <-Hdb. }
    destruct Hdb as [Hdb|[Hdb|Hdb]]; rewrite Hdb in Hxy;
      rewrite ?has_edge_edge_added in Hxy; [by left|..].
    + destruct Hxy as [[Hx Hy]|?]; [|by left]. subst x y.
      right. exists r. split_and!; [done..|by left].
    + destruct Hxy as [[Hx Hy]|[[Hx Hy]|?]]; [| |by left]; subst x y;
        right; exists r; split_and!; try done; first [by left|by right].
  - by destruct (decline_db user pk w) as [->|(r & _ & _ & _ & ->)].
Qed.

(** X6: an accept that returns an answer keeps friendships paired: if
    every friendship row had its reverse before the call, then every
    friendship row has its reverse after it. *)
Theorem accept_keeps_pairing (now : Z) (user : User) (pk : Z) (w w' : World)
    (resp : Response) :
  accept now user pk w = (Return resp, w') →
  paired (db w) → paired (db w').
Proof.
  intros Hrun Hpair.
  destruct (accept_returns _ _ _ _ _ _ Hrun)
    as [[-> _]|(r & Hpk & Hrcv & -> & Hdb)]; [done|].
  rewrite Hdb. intros x y. rewrite !has_edge_edge_added.
  intros [[Hx Hy]|[[Hx Hy]|Hxy]]; [subst x y; eauto..|eauto].
Qed.

Lemma accept_keeps_pairing_witness :
  paired (db (accept 7 20 1 (mkWorld db_pending None)).2).
Proof.
  apply (accept_keeps_pairing 7 20 1 (mkWorld db_pending None)
           (accept 7 20 1 (mkWorld db_pending None)).2 accepted).
  - vm_compute. reflexivity.
  - intros a b Hab. unfold has_edge in Hab. simpl in Hab.
    by apply map_Exists_empty in Hab.
Defined.

(** X7: accept goes through when nothing stands in its way: on a pending
    request addressed to the acting user, from somebody else, with no
    friendship row between the two in either direction and a store that
    takes three writes, it answers 200 with the status accepted. *)
Theorem accept_succeeds (now : Z) (user : User) (pk : Z) (w : World)
    (r : FriendRequest.t) :
  friend_requests (db w) !! pk = Some r →
  FriendRequest.receiver r = user →
  FriendRequest.status r = "pending" →
  FriendRequest.sender r ≠ FriendRequest.receiver r →
  ¬ has_edge (FriendRequest.sender r) (FriendRequest.receiver r) (db w) →
  ¬ has_edge (FriendRequest.receiver r) (FriendRequest.sender r) (db w) →
  up_for 3 w →
  (accept now user pk w).1 = Return accepted.
Proof.
  intros Hpk Hrcv Hst Hne Hab Hba Hup.
  rewrite (accept_pending _ _ _ _ r) by done.
  assert (Hrev : ¬ has_edge (FriendRequest.receiver r) (FriendRequest.sender r)
            (edge_added now (FriendRequest.sender r) (FriendRequest.receiver r)
               (status_written pk r (db w)))).
  { rewrite has_edge_edge_added. intros [[? _]|?]; [done|]. by apply Hba. }
  unfold up_for in Hup.
  destruct (outage w) as [[|[|[|k]]]|]; try lia;
    repeat case_decide; simplify_eq; done.
Qed.

Lemma accept_succeeds_witness :
  (accept 7 20 1 (mkWorld db_pending (Some 3%nat))).1 = Return accepted.
Proof.
  apply (accept_succeeds 7 20 1 (mkWorld db_pending (Some 3%nat))
           (FriendRequest.Build 10 20 "pending" 5)).
  - vm_compute. reflexivity.
  - reflexivity.
  - reflexivity.
  - vm_compute. discriminate.
  - by_compute.
  - by_compute.
  - vm_compute. lia.
Defined.

(** ** Lists, newest first *)

Global Instance descending_total {R} (c : R → Z) : Total (descending c).
Proof. intros x y. unfold descending. lia. Qed.
Global Instance descending_trans {R} (c : R → Z) : Transitive (descending c).
Proof. intros x y z. unfold descending. lia. Qed.

Lemma newest_first {R} (P : R → Prop) `{∀ r, Decision (P r)} (c : R → Z)
    (t : gmap Z R) :
  let q := order_by_desc c (objects_filter P t) in
  (∀ (pk : Z) (r : R), (pk, r) ∈ q ↔ t !! pk = Some r ∧ P r) ∧
  NoDup q ∧
  StronglySorted (descending c) q.
Proof.
  intros q. subst q. split_and!.
  - intros pk r. by rewrite order_by_desc_Permutation, elem_of_objects_filter.
  - rewrite order_by_desc_Permutation. apply NoDup_objects_filter.
  - apply StronglySorted_merge_sort; apply _.
Qed.

Lemma elem_of_objects_filter_insert {R} (P : R → Prop) `{∀ r, Decision (P r)}
    (t : gmap Z R) (k : Z) (x : R) (pk : Z) (r : R) :
  t !! k = None →
  (pk, r) ∈ objects_filter P (<[k := x]> t) ↔
  (pk, r) ∈ objects_filter P t ∨ (pk = k ∧ r = x ∧ P x).
Proof.
  intros Hk. rewrite !elem_of_objects_filter, lookup_insert_Some.
  split.
  - intros [[[-> ->]|[Hne Hpk]] HP]; eauto.
  - intros [[Hpk HP]|(-> & -> & HP)]; [|eauto].
    split; [|done]. right. split; [congruence|done].
Qed.

(** X8: the incoming requests of a user are exactly the stored requests
    addressed to that user, each listed once, the most recently created
    first. *)
Theorem incoming_requests_newest_first (user : User) (d : DB) :
  let q := FriendRequest_get_queryset user d in
  (∀ (pk : Z) (r : FriendRequest.t),
     (pk, r) ∈ q ↔
     friend_requests d !! pk = Some r ∧ FriendRequest.receiver r = user) ∧
  NoDup q ∧
  StronglySorted
    (λ x y, FriendRequest.created_at y.2 ≤ FriendRequest.created_at x.2) q.
Proof. apply (newest_first (addressed_to user)). Qed.

(** X9: the notifications listed for a user are exactly the stored
    notifications of that user, each listed once, the most recent
    first. *)
Theorem notifications_newest_first (user : User) (d : DB) :
  let q := Notification_get_queryset user d in
  (∀ (pk : Z) (n : Notification.t),
     (pk, n) ∈ q ↔
     notifications d !! pk = Some n ∧ Notification.user n = user) ∧
  NoDup q ∧
  StronglySorted
    (λ x y, Notification.timestamp y.2 ≤ Notification.timestamp x.2) q.
Proof. apply (newest_first (owned_by user)). Qed.

(** ** The friends list *)

Lemma elem_of_FriendsList (users : gmap Z UserRow.t) (user : User) (d : DB)
    (id : Z) (u : UserRow.t) :
  (id, u) ∈ FriendsList_get_queryset users user d ↔
  users !! id = Some u ∧ has_edge user id d.
Proof.
  unfold FriendsList_get_queryset.
  rewrite list_elem_of_filter, elem_of_map_to_list, list_elem_of_fmap. simpl.
  unfold has_edge. rewrite map_Exists_lookup. split.
  - intros [([k f] & -> & Hkf) Hu]. split; [done|].
    apply elem_of_objects_filter in Hkf as [Hk Hf]. by exists k, f.
  - intros [Hu (k & f & Hk & Hf1 & Hf2)]. split; [|done].
    exists (k, f). split; [done|]. by apply elem_of_objects_filter.
Qed.

(** X11: the friends list of a user holds exactly the users of the
    directory to whom a friendship row leads from that user, each listed
    once however many rows lead to them. *)
Theorem friends_list_exact (users : gmap Z UserRow.t) (user : User) (d : DB) :
  (∀ (id : Z) (u : UserRow.t),
     (id, u) ∈ FriendsList_get_queryset users user d ↔
     users !! id = Some u ∧ has_edge user id d) ∧
  NoDup (FriendsList_get_queryset users user d).
Proof.
  split; [intros; apply elem_of_FriendsList|].
  apply NoDup_filter, NoDup_map_to_list.
Qed.

(** X12: after an accept that answers 200 on the request of A to B, A is
    in the friends list of B and B is in the friends list of A, for A and
    B in the directory. *)
Theorem accepted_friends_are_listed (users : gmap Z UserRow.t) (now : Z)
    (user : User) (pk : Z) (w w' : World) (r : FriendRequest.t)
    (resp : Response) (ua ub : UserRow.t) :
  friend_requests (db w) !! pk = Some r →
  accept now user pk w = (Return resp, w') →
  status_code resp = HTTP_200_OK →
  users !! FriendRequest.sender r = Some ua →
  users !! FriendRequest.receiver r = Some ub →
  (FriendRequest.sender r, ua)
    ∈ FriendsList_get_queryset users (FriendRequest.receiver r) (db w') ∧
  (FriendRequest.receiver r, ub)
    ∈ FriendsList_get_queryset users (FriendRequest.sender r) (db w').
Proof.
  intros Hpk Hrun Hok Hua Hub.
  destruct (accept_ok_inv _ _ _ _ _ _ _ Hpk Hrun Hok) as (_ & _ & ->).
  rewrite !elem_of_FriendsList, !has_edge_edge_added. naive_solver.
Qed.

Lemma accepted_friends_are_listed_witness :
  let w' := (accept 7 20 1 (mkWorld db_pending None)).2 in
  (10, UserRow.Build "ann" "ann@example.org")
    ∈ FriendsList_get_queryset users_abc 20 (db w') ∧
  (20, UserRow.Build "bob" "bob@example.org")
    ∈ FriendsList_get_queryset users_abc 10 (db w').
Proof.
  apply (accepted_friends_are_listed users_abc 7 20 1 (mkWorld db_pending None)
           (accept 7 20 1 (mkWorld db_pending None)).2
           (FriendRequest.Build 10 20 "pending" 5) accepted).
  - vm_compute. reflexivity.
  - vm_compute. reflexivity.
  - reflexivity.
  - vm_compute. reflexivity.
  - vm_compute. reflexivity.
Defined.

(** X13: in a store where every friendship row has its reverse, being
    listed is mutual: for two users of the directory, each is in the
    friends list of the other or neither is. *)
Theorem friends_lists_are_mutual (users : gmap Z UserRow.t) (a b : User)
    (ua ub : UserRow.t) (d : DB) :
  paired d →
  users !! a = Some ua → users !! b = Some ub →
  (b, ub) ∈ FriendsList_get_queryset users a d ↔
  (a, ua) ∈ FriendsList_get_queryset users b d.
Proof.
  intros Hpair Ha Hb. rewrite !elem_of_FriendsList.
  split; intros [_ Hedge]; (split; [done|by apply Hpair]).
Qed.

Lemma paired_db_processed : paired db_processed.
Proof.
  intros a b. unfold has_edge. rewrite !map_Exists_to_list.
  replace (map_to_list (friendships db_processed))
    with [(1, Friendship.Build 20 10 6); (0, Friendship.Build 10 20 6)]
    by by_compute.
  rewrite !Exists_cons, !Exists_nil. unfold is_edge. simpl.
  intros [[<- <-]|[[<- <-]|[]]]; eauto.
Qed.

Lemma friends_lists_are_mutual_witness :
  (20, UserRow.Build "bob" "bob@example.org")
    ∈ FriendsList_get_queryset users_abc 10 db_processed ↔
  (10, UserRow.Build "ann" "ann@example.org")
    ∈ FriendsList_get_queryset users_abc 20 db_processed.
Proof.
  apply (friends_lists_are_mutual users_abc 10 20 _ _ db_processed).
  - apply paired_db_processed.
  - vm_compute. reflexivity.
  - vm_compute. reflexivity.
Defined.

(** ** Marking read, seen from the rest of the store *)

(** The database [post] leaves behind is the one it found or the one
    after its write on a notification of the acting user. *)
Lemma post_db (user : User) (pk : Z) (w : World) :
  db (post user pk w).2 = db w ∨
  ∃ n, notifications (db w) !! pk = Some n ∧
       Notification.user n = user ∧
       db (post user pk w).2
         = set_notifications
             (<[pk := Notification.with_is_read true n]> (notifications (db w)))
             (db w).
Proof.
  destruct (notifications (db w) !! pk) as [n|] eqn:Hpk.
  2:{ left. unfold post. rewrite bind_run. by rewrite get_object_or_404_missing. }
  destruct (decide (Notification.user n = user)) as [Hown|Hown].
  2:{ left. unfold post. rewrite bind_run.
      by rewrite (get_object_or_404_foreign _ _ _ _ n). }
  unfold post. rewrite bind_run.
  rewrite (get_object_or_404_found _ _ _ _ n) by done.
  rewrite bind_run. unfold Notification_save, commit.
  case_decide; simpl; eauto.
Qed.

(** X14: whatever mark-read answers, it adds and removes no notification,
    leaves the owner, the payload and the timestamp of every notification
    as they were, never makes a read notification unread, and changes no
    read flag but that of the notification stored under the given key
    when it belongs to the acting user; it touches no friend request,
    friendship or message. *)
Theorem mark_read_touches_one_flag (user : User) (pk : Z) (w : World) :
  let after := db (post user pk w).2 in
  (∀ (k : Z) (n : Notification.t),
     notifications (db w) !! k = Some n →
     ∃ n', notifications after !! k = Some n' ∧ same_notification n n' ∧
       (Notification.is_read n' = Notification.is_read n ∨
        (k = pk ∧ Notification.user n = user ∧ Notification.is_read n' = true))) ∧
  (∀ k : Z, notifications (db w) !! k = None → notifications after !! k = None) ∧
  friend_requests after = friend_requests (db w) ∧
  friendships after = friendships (db w) ∧
  messages after = messages (db w).
Proof.
  intros after. subst after.
  destruct (post_db user pk w) as [->|(n0 & Hpk & Hown & ->)].
  { split_and!; try done. intros k n Hk. exists n. split_and!; [done|done|by left]. }
  split_and!; try done.
  - intros k n Hk. simpl. destruct (decide (k = pk)) as [->|Hne].
    + rewrite lookup_insert_eq. simplify_eq. eexists.
      split_and!; [done|done|]. right. by split_and!.
    + rewrite lookup_insert_ne by done. exists n. split_and!; [done|done|by left].
  - intros k Hk. simpl. rewrite lookup_insert_ne; [done|congruence].
Qed.

(** ** Public events *)

Section DiscoverEvents.

Context {Event Serialized : Type}.
Variable is_public : Event → bool.
Variable created_at : Event → Z.
Variable EventSerializer : Event → Serialized.

(** X16: the discovery view answers with at most ten events, one answer
    per selected row; the rows it selects are stored public events, each
    once, the most recently created first; and a stored public event is
    left out only when ten are listed, each of them created no earlier
    than it. *)
Theorem discover_lists_newest_public (events : gmap Z Event) :
  let q := DiscoverEvents_queryset Event is_public created_at events in
  DiscoverEvents_get Event is_public created_at Serialized EventSerializer events
    = (λ ke, EventSerializer ke.2) <$> q ∧
  (length q ≤ 10)%nat ∧
  (∀ (pk : Z) (e : Event),
     (pk, e) ∈ q → events !! pk = Some e ∧ is_public e = true) ∧
  NoDup q ∧
  StronglySorted (λ x y, created_at y.2 ≤ created_at x.2) q ∧
  (∀ (pk : Z) (e : Event),
     events !! pk = Some e → is_public e = true → (pk, e) ∉ q →
     length q = 10%nat ∧
     ∀ (pk' : Z) (e' : Event), (pk', e') ∈ q → created_at e ≤ created_at e').
Proof.
  intros q. subst q. unfold DiscoverEvents_queryset.
  set (l := order_by_desc created_at
              (objects_filter (public Event is_public) events)).
  destruct (newest_first (public Event is_public) created_at events)
    as (Hmem & Hnodup & Hsorted). fold l in Hmem, Hnodup, Hsorted.
  assert (Hsplit : l = (take 10 l ++ drop 10 l)%list) by by rewrite take_drop.
  split_and!.
  - done.
  - rewrite length_take. lia.
  - intros pk e Hin. apply Hmem. rewrite Hsplit. apply elem_of_app. by left.
  - rewrite Hsplit in Hnodup. by apply NoDup_app in Hnodup as (? & _ & _).
  - rewrite Hsplit in Hsorted. by apply StronglySorted_app_1_l in Hsorted.
  - intros pk e Hpk Hpub Hout.
    assert (Hin : (pk, e) ∈ l) by by apply Hmem.
    rewrite Hsplit in Hin. apply elem_of_app in Hin as [Hin|Hin]; [done|].
    split.
    + rewrite length_take. apply list_elem_of_lookup in Hin as [i Hi].
      apply lookup_lt_Some in Hi. rewrite length_drop in Hi. lia.
    + intros pk' e' Hin'. rewrite Hsplit in Hsorted.
      apply (StronglySorted_app_1_elem_of _ _ _ (pk', e') (pk, e) Hsorted Hin' Hin).
Qed.

End DiscoverEvents.

(** ** Wishlist and attendance *)

Section OwnedEvents.

Context {E : Type}.
Variable user : E → User.
Variable stamp : E → Z.
Variable with_user : User → E → E.

(** Saving with [user=request.user] stores the acting user in the user
    column. *)
Hypothesis user_with_user : ∀ (u : User) (e : E), user (with_user u e) = u.

(** X17: a wishlist entry created by a user is stored as that user's; it
    joins that user's wishlist and nobody else's, every wishlist keeps
    the entries it had, and each wishlist holds only entries of its
    owner, each once, the most recently added first. *)
Theorem wishlist_entry_is_listed (u : User) (validated : E) (t : gmap Z E) :
  let t' := WishlistEvent_perform_create E with_user u validated t in
  let list := WishlistEvent_get_queryset E user stamp in
  (∀ (v : User) (pk : Z) (e : E),
     (pk, e) ∈ list v t' ↔
     (pk, e) ∈ list v t ∨
     (pk = next_pk t ∧ e = with_user u validated ∧ v = u)) ∧
  (∀ v : User,
     (∀ (pk : Z) (e : E), (pk, e) ∈ list v t' → user e = v) ∧
     NoDup (list v t') ∧
     StronglySorted (λ x y, stamp y.2 ≤ stamp x.2) (list v t')).
Proof.
  intros t' list. subst t' list. split.
  - intros v pk e. unfold WishlistEvent_get_queryset, WishlistEvent_perform_create.
    rewrite !order_by_desc_Permutation.
    rewrite elem_of_objects_filter_insert by apply next_pk_fresh.
    unfold wished_by. rewrite user_with_user. split.
    + intros [?|(-> & -> & <-)]; [by left|by right].
    + intros [?|(-> & -> & ->)]; [by left|by right].
  - intros v. unfold WishlistEvent_get_queryset.
    destruct (newest_first (wished_by E user v) stamp
                (WishlistEvent_perform_create E with_user u validated t))
      as (Hmem & Hnodup & Hsorted).
    split_and!; [|done|done]. intros pk e Hin. by apply Hmem in Hin as [_ ?].
Qed.

(** X18: an attendance created by a user is stored as that user's; it
    joins that user's attended events and nobody else's, every list keeps
    the entries it had, and each list holds only entries of its owner,
    each once, the most recently attended first. *)
Theorem attendance_is_listed (u : User) (validated : E) (t : gmap Z E) :
  let t' := AttendedEvent_perform_create E with_user u validated t in
  let list := AttendedEvent_get_queryset E user stamp in
  (∀ (v : User) (pk : Z) (e : E),
     (pk, e) ∈ list v t' ↔
     (pk, e) ∈ list v t ∨
     (pk = next_pk t ∧ e = with_user u validated ∧ v = u)) ∧
  (∀ v : User,
     (∀ (pk : Z) (e : E), (pk, e) ∈ list v t' → user e = v) ∧
     NoDup (list v t') ∧
     StronglySorted (λ x y, stamp y.2 ≤ stamp x.2) (list v t')).
Proof.
  intros t' list. subst t' list. split.
  - intros v pk e. unfold AttendedEvent_get_queryset, AttendedEvent_perform_create.
    rewrite !order_by_desc_Permutation.
    rewrite elem_of_objects_filter_insert by apply next_pk_fresh.
    unfold attended_by. rewrite user_with_user. split.
    + intros [?|(-> & -> & <-)]; [by left|by right].
    + intros [?|(-> & -> & ->)]; [by left|by right].
  - intros v. unfold AttendedEvent_get_queryset.
    destruct (newest_first (attended_by E user v) stamp
                (AttendedEvent_perform_create E with_user u validated t))
      as (Hmem & Hnodup & Hsorted).
    split_and!; [|done|done]. intros pk e Hin. by apply Hmem in Hin as [_ ?].
Qed.

End OwnedEvents.

Lemma wishlist_entry_is_listed_witness :
  let t' := WishlistEvent_perform_create owned_row ow_with_user 10
              (mk_owned 0 8) owned_two in
  let list := WishlistEvent_get_queryset owned_row ow_user ow_at in
  (∀ (v : User) (pk : Z) (e : owned_row),
     (pk, e) ∈ list v t' ↔
     (pk, e) ∈ list v owned_two ∨
     (pk = next_pk owned_two ∧ e = ow_with_user 10 (mk_owned 0 8) ∧ v = 10)) ∧
  (∀ v : User,
     (∀ (pk : Z) (e : owned_row), (pk, e) ∈ list v t' → ow_user e = v) ∧
     NoDup (list v t') ∧
     StronglySorted (λ x y, ow_at y.2 ≤ ow_at x.2) (list v t')).
Proof.
  apply (wishlist_entry_is_listed ow_user ow_at ow_with_user).
  intros u e. reflexivity.
Defined.

Lemma attendance_is_listed_witness :
  let t' := AttendedEvent_perform_create owned_row ow_with_user 20
              (mk_owned 0 8) owned_two in
  let list := AttendedEvent_get_queryset owned_row ow_user ow_at in
  (∀ (v : User) (pk : Z) (e : owned_row),
     (pk, e) ∈ list v t' ↔
     (pk, e) ∈ list v owned_two ∨
     (pk = next_pk owned_two ∧ e = ow_with_user 20 (mk_owned 0 8) ∧ v = 20)) ∧
  (∀ v : User,
     (∀ (pk : Z) (e : owned_row), (pk, e) ∈ list v t' → ow_user e = v) ∧
     NoDup (list v t') ∧
     StronglySorted (λ x y, ow_at y.2 ≤ ow_at x.2) (list v t')).
Proof.
  apply (attendance_is_listed ow_user ow_at ow_with_user).
  intros u e. reflexivity.
Defined.

(** ** Signing in with Google *)

Lemma local_part_at_free (email : string) : at_free (local_part email).
Proof.
  induction email as [|c rest IH]; simpl; [done|].
  case_decide; simpl; [done|by split].
Qed.

Lemma local_part_prefix (email : string) :
  email = local_part email ∨
  ∃ domain, email = local_part email +:+ String "@" domain.
Proof.
  induction email as [|c rest IH]; simpl; [by left|].
  case_decide as Hc.
  - right. exists rest. by rewrite Hc.
  - destruct IH as [IH|[domain IH]].
    + left. by f_equal.
    + right. exists domain. exact (f_equal (String c) IH).
Qed.

Lemma local_part_of_at_free (l : string) : at_free l → local_part l = l.
Proof.
  induction l as [|c rest IH]; simpl; [done|]. intros [Hc Hrest].
  rewrite decide_False by done. by rewrite IH.
Qed.

Lemma local_part_before_at (l domain : string) :
  at_free l → local_part (l +:+ String "@" domain) = l.
Proof.
  induction l as [|c rest IH].
  - intros _. change (local_part (String "@" domain) = ""). simpl.
    first [done|by rewrite decide_True].
  - intros [Hc Hrest].
    change (local_part (String c (rest +:+ String "@" domain)) = String c rest).
    simpl. rewrite decide_False by done. by rewrite IH.
Qed.

(** X19: the username given to a new user is the text of the email before
    its first at sign, the whole email when it has none: [l] is that
    username exactly when [l] has no at sign and the email is [l] or [l]
    followed by an at sign and anything. *)
Theorem username_is_local_part (email l : string) :
  local_part email = l ↔
  at_free l ∧ (email = l ∨ ∃ domain, email = l +:+ String "@" domain).
Proof.
  split.
  - intros <-. split; [apply local_part_at_free|apply local_part_prefix].
  - intros [Hfree [->|[domain ->]]].
    + by apply local_part_of_at_free.
    + by apply local_part_before_at.
Qed.

Section GoogleAuth.

Context {TokenValue Directory : Type}.
Variable truthy : TokenValue → bool.
Variable config : option string.
Variable verify_oauth2_token : TokenValue → string → Try IdInfo.
Variable User_get_or_create :
  string → string → Directory → Try (Z * UserRow.t) * Directory.
Variable Token_get_or_create : Z → Directory → Try string * Directory.

Local Abbreviation sign_in :=
  (GoogleAuth_post TokenValue truthy Directory config verify_oauth2_token
     User_get_or_create Token_get_or_create).

(** X20: the login view answers 200 only for a token with a true truth
    value that Google verified for the configured client id and that
    carries a non-empty email; the session it answers with is that of the
    user the directory gave or made for that email, with the text before
    the at sign as the default username, and of that user's token. *)
Theorem session_needs_verified_email (token : option TokenValue)
    (s s' : Directory) (resp : AuthResponse) :
  sign_in token s = (Done resp, s') →
  auth_status_code resp = HTTP_200_OK →
  ∃ (t : TokenValue) (client : string) (idinfo : IdInfo) (email : string)
    (id : Z) (user : UserRow.t) (key : string) (s1 : Directory),
    token = Some t ∧ truthy t = true ∧ config = Some client ∧
    verify_oauth2_token t client = Done idinfo ∧
    id_email idinfo = Some email ∧ email ≠ "" ∧
    User_get_or_create email (local_part email) s = (Done (id, user), s1) ∧
    Token_get_or_create id s1 = (Done key, s') ∧
    auth_data resp
      = Session key id (UserRow.username user) (UserRow.email user).
Proof.
  unfold GoogleAuth_post, GoogleAuth_try. intros Hrun Hok.
  destruct token as [t|]; [|by simplify_eq].
  destruct (truthy t) eqn:Ht; [|by simplify_eq].
  destruct config as [client|]; [|by simplify_eq].
  destruct (verify_oauth2_token t client) as [idinfo|[]] eqn:Hv;
    [|by simplify_eq..].
  destruct (id_email idinfo) as [[|c email]|] eqn:He; [by simplify_eq| |by simplify_eq].
  destruct (User_get_or_create (String c email) (local_part (String c email)) s)
    as [[[id user]|[]] s1] eqn:Hu; [|by simplify_eq..].
  destruct (Token_get_or_create id s1) as [[key|[]] s2] eqn:Hk;
    [|by simplify_eq..].
  simplify_eq. by exists t, client, idinfo, (String c email), id, user, key, s1.
Qed.

(** X21: without a token that Google verifies with a non-empty email the
    login view leaves the user directory as it was and gives no session:
    when it answers, it answers 400. *)
Theorem unverified_login_changes_nothing (token : option TokenValue)
    (s : Directory) :
  (∀ (t : TokenValue) (client : string) (idinfo : IdInfo) (email : string),
     token = Some t → truthy t = true → config = Some client →
     verify_oauth2_token t client = Done idinfo →
     id_email idinfo = Some email → email = "") →
  (sign_in token s).2 = s ∧
  ∀ resp, (sign_in token s).1 = Done resp →
          auth_status_code resp = HTTP_400_BAD_REQUEST.
Proof.
  unfold GoogleAuth_post, GoogleAuth_try. intros Hnot.
  destruct token as [t|]; [|by split; [|intros ? [= <-]]].
  destruct (truthy t) eqn:Ht; [|by split; [|intros ? [= <-]]].
  destruct config as [client|]; [|by split].
  destruct (verify_oauth2_token t client) as [idinfo|[]] eqn:Hv;
    [|by split; [|intros ? [= <-]]|by split].
  destruct (id_email idinfo) as [[|c email]|] eqn:He;
    [by split; [|intros ? [= <-]]| |by split; [|intros ? [= <-]]].
  by specialize (Hnot t client idinfo (String c email) eq_refl Ht eq_refl Hv He).
Qed.

End GoogleAuth.

Lemma session_needs_verified_email_witness :
  ∃ (t : string) (client : string) (idinfo : IdInfo) (email : string)
    (id : Z) (user : UserRow.t) (key : string) (s1 : unit),
    Some "good" = Some t ∧ nonempty t = true ∧ Some "client-1" = Some client ∧
    verify_good t client = Done idinfo ∧
    id_email idinfo = Some email ∧ email ≠ "" ∧
    one_user email (local_part email) tt = (Done (id, user), s1) ∧
    one_token id s1 = (Done key, tt) ∧
    auth_data (mkAuthResponse HTTP_200_OK
                 (Session "k3y" 10 "ann" "ann@example.org"))
      = Session key id (UserRow.username user) (UserRow.email user).
Proof.
  apply (session_needs_verified_email nonempty (Some "client-1") verify_good
           one_user one_token (Some "good") tt tt).
  - vm_compute. reflexivity.
  - reflexivity.
Defined.

Lemma unverified_login_changes_nothing_witness :
  (GoogleAuth_post string nonempty unit (Some "client-1") verify_good
     one_user one_token (Some "bad") tt).2 = tt ∧
  ∀ resp,
    (GoogleAuth_post string nonempty unit (Some "client-1") verify_good
       one_user one_token (Some "bad") tt).1 = Done resp →
    auth_status_code resp = HTTP_400_BAD_REQUEST.
Proof.
  apply (unverified_login_changes_nothing nonempty (Some "client-1") verify_good
           one_user one_token (Some "bad") tt).
  intros t client idinfo email [= <-] _ _ Hv. vm_compute in Hv. discriminate.
Defined.

(** Of two public events and a private one, the discovery view lists the
    public two, the later first. *)
Example scenario_discover :
  DiscoverEvents_queryset event_row ev_public ev_created_at events_three
    = [(3, mk_event true 7); (1, mk_event true 5)].
Proof. by_compute. Qed.

(** The default username of ann@example.org is ann. *)
Example scenario_username : local_part "ann@example.org" = "ann".
Proof. by_compute. Qed.

(** User 10 writes "hi" to user 20 on an empty store: the answer is 201,
    the message is stored and a notification waits for user 20. *)
Example scenario_send :
  let out := ChatMessage_create 9 10 20 "hi" (mkWorld db_empty None) in
  out.1 = Return (mkResponse HTTP_201_CREATED []) ∧
  messages (db out.2) !! 0 = Some (Message.Build 10 20 "hi" 9) ∧
  notifications (db out.2) !! 0 = Some (Notification.Build 20 "message" false 9).
Proof. split_and!; by_compute. Qed.
